(** * OrionCalibration: self-calibration of the Si5351 against the GPS PPS

    A shallow embedding of [OrionCalibration.cpp]: the Timer1 reference
    counter and its overflow tally, the two GPS PPS interrupt handlers
    (external interrupt on D2/D3, pin change interrupt on A5), and the
    Huff-n-Puff loop of [do_calibration].

    The sketch runs on an ATmega328P: [int] and [unsigned int] are 16 bits
    wide, [long] and [unsigned long] 32 bits.  Integers are modelled as [Z]
    with the wrap-around of every operation written out. *)

From Stdlib Require Import ZArith List Bool Lia.
Import ListNotations.
Local Open Scope Z_scope.

(** ** Machine integers *)

Module Int.

(** [unsigned int] and the Timer1 register: 16 bits. *)
Definition wrap_u16 (z : Z) : Z := z mod 65536.

(** Conversion of a 16-bit register value to [int] (16-bit two's complement). *)
Definition to_int16 (z : Z) : Z :=
  if z mod 65536 <? 32768 then z mod 65536 else z mod 65536 - 65536.

(** [uint64_t]. *)
Definition wrap_u64 (z : Z) : Z := z mod 18446744073709551616.

(** Conversion to [int32_t] of a 32-bit [unsigned long] result. *)
Definition to_int32 (z : Z) : Z := (z + 2147483648) mod 4294967296 - 2147483648.

Definition int32_range (z : Z) : Prop := -2147483648 <= z <= 2147483647.

End Int.

(** ** Bit positions of the ATmega328P device header

    These come from the AVR device header the sketch is compiled against,
    not from the repository. *)

Module Bits.
Definition INT1 : Z := 1.
Definition PCINT13 : Z := 5.
Definition PCIF1 : Z := 1.
Definition TOV1 : Z := 0.
Definition TOIE1 : Z := 0.
Definition CS10 : Z := 0.
Definition CS11 : Z := 1.
Definition CS12 : Z := 2.
End Bits.

(** ** The sampler: Timer1, the PPS interrupt and their volatile globals *)

(** The two builds selected by [GPS_PPS_ON_D2_OR_D3]. *)
Inductive build : Type :=
| ExternalInterrupt   (* GPS_PPS_ON_D2_OR_D3 defined: INT1, rising edge *)
| PinChange.          (* otherwise: PCINT13, both edges *)

Record sampler : Type := mkSampler {
  TCNT1 : Z;                       (* Timer1 counter, 16 bits *)
  TIFR1_TOV1 : bool;               (* latched Timer1 overflow flag *)
  PCIFR_PCIF1 : bool;              (* latched pin change flag *)
  TCCR1B : Z;                      (* Timer1 clock select *)
  TIMSK1 : Z;                      (* Timer1 interrupt mask *)
  EIMSK : Z;                       (* external interrupt mask *)
  PCMSK1 : Z;                      (* pin change mask, port C *)
  overflowCounter : Z;             (* volatile unsigned int *)
  gpsPPScounter : Z;               (* volatile unsigned int *)
  g_calibration_proceed : bool;    (* volatile bool *)
  is_PPS_rising_edge : bool        (* volatile bool *)
}.

Definition set_TCNT1 (v : Z) (g : sampler) : sampler :=
  mkSampler v (TIFR1_TOV1 g) (PCIFR_PCIF1 g) (TCCR1B g) (TIMSK1 g) (EIMSK g)
         (PCMSK1 g) (overflowCounter g) (gpsPPScounter g)
         (g_calibration_proceed g) (is_PPS_rising_edge g).

Definition set_TOV1 (v : bool) (g : sampler) : sampler :=
  mkSampler (TCNT1 g) v (PCIFR_PCIF1 g) (TCCR1B g) (TIMSK1 g) (EIMSK g)
         (PCMSK1 g) (overflowCounter g) (gpsPPScounter g)
         (g_calibration_proceed g) (is_PPS_rising_edge g).

Definition set_PCIF1 (v : bool) (g : sampler) : sampler :=
  mkSampler (TCNT1 g) (TIFR1_TOV1 g) v (TCCR1B g) (TIMSK1 g) (EIMSK g)
         (PCMSK1 g) (overflowCounter g) (gpsPPScounter g)
         (g_calibration_proceed g) (is_PPS_rising_edge g).

Definition set_TCCR1B (v : Z) (g : sampler) : sampler :=
  mkSampler (TCNT1 g) (TIFR1_TOV1 g) (PCIFR_PCIF1 g) v (TIMSK1 g) (EIMSK g)
         (PCMSK1 g) (overflowCounter g) (gpsPPScounter g)
         (g_calibration_proceed g) (is_PPS_rising_edge g).

Definition set_TIMSK1 (v : Z) (g : sampler) : sampler :=
  mkSampler (TCNT1 g) (TIFR1_TOV1 g) (PCIFR_PCIF1 g) (TCCR1B g) v (EIMSK g)
         (PCMSK1 g) (overflowCounter g) (gpsPPScounter g)
         (g_calibration_proceed g) (is_PPS_rising_edge g).

Definition set_EIMSK (v : Z) (g : sampler) : sampler :=
  mkSampler (TCNT1 g) (TIFR1_TOV1 g) (PCIFR_PCIF1 g) (TCCR1B g) (TIMSK1 g) v
         (PCMSK1 g) (overflowCounter g) (gpsPPScounter g)
         (g_calibration_proceed g) (is_PPS_rising_edge g).

Definition set_PCMSK1 (v : Z) (g : sampler) : sampler :=
  mkSampler (TCNT1 g) (TIFR1_TOV1 g) (PCIFR_PCIF1 g) (TCCR1B g) (TIMSK1 g) (EIMSK g)
         v (overflowCounter g) (gpsPPScounter g)
         (g_calibration_proceed g) (is_PPS_rising_edge g).

Definition set_overflowCounter (v : Z) (g : sampler) : sampler :=
  mkSampler (TCNT1 g) (TIFR1_TOV1 g) (PCIFR_PCIF1 g) (TCCR1B g) (TIMSK1 g) (EIMSK g)
         (PCMSK1 g) v (gpsPPScounter g)
         (g_calibration_proceed g) (is_PPS_rising_edge g).

Definition set_gpsPPScounter (v : Z) (g : sampler) : sampler :=
  mkSampler (TCNT1 g) (TIFR1_TOV1 g) (PCIFR_PCIF1 g) (TCCR1B g) (TIMSK1 g) (EIMSK g)
         (PCMSK1 g) (overflowCounter g) v
         (g_calibration_proceed g) (is_PPS_rising_edge g).

Definition set_g_calibration_proceed (v : bool) (g : sampler) : sampler :=
  mkSampler (TCNT1 g) (TIFR1_TOV1 g) (PCIFR_PCIF1 g) (TCCR1B g) (TIMSK1 g) (EIMSK g)
         (PCMSK1 g) (overflowCounter g) (gpsPPScounter g)
         v (is_PPS_rising_edge g).

Definition set_is_PPS_rising_edge (v : bool) (g : sampler) : sampler :=
  mkSampler (TCNT1 g) (TIFR1_TOV1 g) (PCIFR_PCIF1 g) (TCCR1B g) (TIMSK1 g) (EIMSK g)
         (PCMSK1 g) (overflowCounter g) (gpsPPScounter g)
         (g_calibration_proceed g) v.

(** The interrupt flag registers are cleared by writing a one to the bit. *)
Definition write_TIFR1 (v : Z) (g : sampler) : sampler :=
  if Z.testbit v Bits.TOV1 then set_TOV1 false g else g.

Definition write_PCIFR (v : Z) (g : sampler) : sampler :=
  if Z.testbit v Bits.PCIF1 then set_PCIF1 false g else g.

(** A block of statements, run in program order. *)
Definition block : Type := list (sampler -> sampler).

Definition exec (b : block) (g : sampler) : sampler :=
  fold_left (fun s stmt => stmt s) b g.

(** ** Interrupt handlers *)

(** [ISR(TIMER1_OVF_vect)]. *)
Definition TIMER1_OVF_vect (g : sampler) : sampler :=
  set_overflowCounter (Int.wrap_u16 (overflowCounter g + 1)) g.

(** The body run on the first PPS pulse (both handlers, lines 72-74 and
    111-113). *)
Definition first_pulse : block :=
  [ set_TCNT1 0;
    write_TIFR1 (Z.shiftl 1 Bits.TOV1);
    set_overflowCounter 0 ].

(** The body run on the eleventh pulse. *)
Definition window_close (b : build) : block :=
  match b with
  | ExternalInterrupt =>
      [ set_EIMSK (Z.shiftl 0 Bits.INT1);
        set_TCCR1B 0;
        set_g_calibration_proceed true ]
  | PinChange =>
      [ set_PCMSK1 (Z.shiftl 0 Bits.PCINT13);
        set_TCCR1B 0;
        set_is_PPS_rising_edge false;
        set_g_calibration_proceed true ]
  end.

(** The part shared by the two handlers once an edge counts. *)
Definition count_pulse (b : build) (g : sampler) : sampler :=
  let g1 := set_gpsPPScounter (Int.wrap_u16 (gpsPPScounter g + 1)) g in
  let g2 := if gpsPPScounter g1 =? 1 then exec first_pulse g1 else g1 in
  if gpsPPScounter g2 =? 11 then exec (window_close b) g2 else g2.

(** [PPSinterruptISR]. *)
Definition PPSinterruptISR (g : sampler) : sampler :=
  count_pulse ExternalInterrupt g.

(** [ISR(PCINT1_vect)]. *)
Definition PCINT1_vect (g : sampler) : sampler :=
  let g1 := set_is_PPS_rising_edge (negb (is_PPS_rising_edge g)) g in
  if is_PPS_rising_edge g1 then count_pulse PinChange g1 else g1.

(** ** Hardware events

    Interrupt handlers run atomically, at the event that raises them, when
    the source is unmasked. *)

Inductive event : Type :=
| T1_rising      (* rising edge of the calibration clock on T1 (D5) *)
| PPS_rising     (* rising edge of the GPS PPS pin *)
| PPS_falling.   (* falling edge of the GPS PPS pin *)

(** Timer1 counts T1 edges when CS12..CS10 select the external clock. *)
Definition counting (g : sampler) : bool := Z.land (TCCR1B g) 7 =? 7.

Definition trigger_enabled (b : build) (g : sampler) : bool :=
  match b with
  | ExternalInterrupt => Z.testbit (EIMSK g) Bits.INT1
  | PinChange => Z.testbit (PCMSK1 g) Bits.PCINT13
  end.

Definition timer1_tick (g : sampler) : sampler :=
  if counting g then
    if TCNT1 g =? 65535 then
      let g1 := set_TCNT1 0 g in
      if Z.testbit (TIMSK1 g1) Bits.TOIE1 then TIMER1_OVF_vect g1
      else set_TOV1 true g1
    else set_TCNT1 (TCNT1 g + 1) g
  else g.

Definition step (b : build) (e : event) (g : sampler) : sampler :=
  match e, b with
  | T1_rising, _ => timer1_tick g
  | PPS_rising, ExternalInterrupt =>
      if trigger_enabled b g then PPSinterruptISR g else g
  | PPS_falling, ExternalInterrupt => g
  | (PPS_rising | PPS_falling), PinChange =>
      if trigger_enabled b g then PCINT1_vect g else g
  end.

Definition run (b : build) (evs : list event) (g : sampler) : sampler :=
  fold_left (fun s e => step b e s) evs g.

(** The states after each event, in order. *)
Fixpoint history (b : build) (evs : list event) (g : sampler) : list sampler :=
  match evs with
  | [] => []
  | e :: rest => let g' := step b e g in g' :: history b rest g'
  end.

(** ** Arming a window (lines 242-258 of [do_calibration]) *)

Definition clock_select_T1 : Z :=
  Z.lor (Z.lor (Z.shiftl 1 Bits.CS12) (Z.shiftl 1 Bits.CS11)) (Z.shiftl 1 Bits.CS10).

Definition arm_block (b : build) : block :=
  [ set_g_calibration_proceed false;
    set_gpsPPScounter 0;
    set_overflowCounter 0 ]
  ++ match b with
     | ExternalInterrupt => [ set_EIMSK (Z.shiftl 1 Bits.INT1) ]
     | PinChange =>
         [ write_PCIFR (Z.shiftl 1 Bits.PCIF1);
           set_PCMSK1 (Z.shiftl 1 Bits.PCINT13);
           set_is_PPS_rising_edge false ]
     end
  ++ [ set_TCCR1B clock_select_T1;
       set_TIMSK1 (Z.shiftl 1 Bits.TOIE1) ].

Definition arm (b : build) (g : sampler) : sampler := exec (arm_block b) g.

(** ** The calibration controller *)

(** Calls made to the collaborators, in program order. *)
Inductive call : Type :=
| swerr (code data : Z)
| log_debug_Timer1_info (i overflow timer_counter1 : Z)
| log_calibration (measured old_cal new_cal : Z)
| si5351bx_set_correction (correction : Z)
| si5351bx_setfreq (clk freq : Z)
| si5351bx_enable_clk (clk state : Z)
| delay (ms : Z).

(** Constants of [OrionXConfig.h] and [OrionSi5351.h], taken as parameters. *)
Record board_config : Type := mkConfig {
  SI5351A_CAL_CLK_NUM : Z;
  SI5351A_PARK_CLK_NUM : Z;
  SI5351_CLK_OFF : Z;
  PARK_FREQ_HZ : Z
}.

(** A read by the main loop of one of the two halves of the reference
    count, with the interrupt enable bit and the completion flag at the time
    of the read. *)
Inductive shared_var : Type := Read_TCNT1 | Read_overflowCounter.

Record access : Type := mkAccess {
  acc_var : shared_var;
  acc_interrupts_enabled : bool;
  acc_window_complete : bool
}.

Record machine : Type := mkMachine {
  hw : sampler;
  SREG_I : bool;              (* global interrupt enable *)
  cal_factor : Z;             (* int32_t *)
  old_cal_factor : Z;         (* int32_t *)
  measured_rx_freq : Z;       (* uint64_t *)
  target_freq : Z;            (* uint64_t *)
  calls : list call;
  reads : list access
}.

Definition set_hw (v : sampler) (m : machine) : machine :=
  mkMachine v (SREG_I m) (cal_factor m) (old_cal_factor m) (measured_rx_freq m)
            (target_freq m) (calls m) (reads m).

Definition set_SREG_I (v : bool) (m : machine) : machine :=
  mkMachine (hw m) v (cal_factor m) (old_cal_factor m) (measured_rx_freq m)
            (target_freq m) (calls m) (reads m).

Definition set_cal_factor (v : Z) (m : machine) : machine :=
  mkMachine (hw m) (SREG_I m) v (old_cal_factor m) (measured_rx_freq m)
            (target_freq m) (calls m) (reads m).

Definition set_old_cal_factor (v : Z) (m : machine) : machine :=
  mkMachine (hw m) (SREG_I m) (cal_factor m) v (measured_rx_freq m)
            (target_freq m) (calls m) (reads m).

Definition set_measured_rx_freq (v : Z) (m : machine) : machine :=
  mkMachine (hw m) (SREG_I m) (cal_factor m) (old_cal_factor m) v
            (target_freq m) (calls m) (reads m).

Definition emit (c : call) (m : machine) : machine :=
  mkMachine (hw m) (SREG_I m) (cal_factor m) (old_cal_factor m) (measured_rx_freq m)
            (target_freq m) (calls m ++ [c]) (reads m).

Definition record_read (v : shared_var) (m : machine) : machine :=
  mkMachine (hw m) (SREG_I m) (cal_factor m) (old_cal_factor m) (measured_rx_freq m)
            (target_freq m) (calls m)
            (reads m ++ [mkAccess v (SREG_I m) (g_calibration_proceed (hw m))]).

Definition noInterrupts (m : machine) : machine := set_SREG_I false m.
Definition interrupts (m : machine) : machine := set_SREG_I true m.

Definition read_TCNT1 (m : machine) : Z * machine :=
  (TCNT1 (hw m), record_read Read_TCNT1 m).

Definition read_overflowCounter (m : machine) : Z * machine :=
  (overflowCounter (hw m), record_read Read_overflowCounter m).

(** Lines 241-259: the window is armed inside one critical section. *)
Definition arm_window (b : build) (m : machine) : machine :=
  let m1 := noInterrupts m in
  let m2 := set_hw (arm b (hw m1)) m1 in
  interrupts m2.

(** Line 261, [while (!g_calibration_proceed);].  The events are those the
    hardware delivers while the main loop spins; the loop leaves at the first
    poll that sees the flag, and never leaves when the events run out. *)
Fixpoint wait_for_proceed (b : build) (w : list event) (m : machine)
  : option machine :=
  if g_calibration_proceed (hw m) then Some m
  else match w with
       | [] => None
       | e :: w' => wait_for_proceed b w' (set_hw (step b e (hw m)) m)
       end.

(** Line 269: [(timer_counter1 + (65536 * (int64_t)overflowCounter)) * 10ULL],
    the sum converted to [uint64_t] for the product. *)
Definition measured_frequency (timer_counter1 overflow : Z) : Z :=
  Int.wrap_u64 (Int.wrap_u64 (timer_counter1 + 65536 * overflow) * 10).

(** Lines 278-289.  [cal_factor] is [int32_t] and [calibration_step] is
    [unsigned long]: the arithmetic is done modulo 2^32 and the result
    converted back to [int32_t]. *)
Definition huff_n_puff (calibration_step : Z) (m : machine) : machine :=
  if negb (measured_rx_freq m =? 0) then
    let m1 :=
      if measured_rx_freq m <? target_freq m
      then set_cal_factor (Int.to_int32 (cal_factor m - calibration_step)) m
      else m in
    if target_freq m1 <? measured_rx_freq m1
    then set_cal_factor (Int.to_int32 (cal_factor m1 + calibration_step)) m1
    else m1
  else emit (swerr 8 0) m.

(** Lines 264-301: everything after the wait in one pass of the loop. *)
Definition sample_and_correct (cfg : board_config) (calibration_step i : Z)
    (m : machine) : machine :=
  let m1 := noInterrupts m in
  let (raw, m2) := read_TCNT1 m1 in
  let timer_counter1 := Int.to_int16 raw in        (* int timer_counter1 *)
  let m3 := interrupts m2 in
  let (overflow, m4) := read_overflowCounter m3 in
  let m5 := set_measured_rx_freq (measured_frequency timer_counter1 overflow) m4 in
  let m6 := set_old_cal_factor (cal_factor m5) m5 in
  if negb (i =? 0) then
    let m7 := huff_n_puff calibration_step m6 in
    let (overflow', m8) := read_overflowCounter m7 in
    let m9 := emit (log_debug_Timer1_info i overflow' timer_counter1) m8 in
    let m10 := emit (log_calibration (measured_rx_freq m9) (old_cal_factor m9)
                                     (cal_factor m9)) m9 in
    let m11 := emit (si5351bx_set_correction (cal_factor m10)) m10 in
    let m12 := emit (si5351bx_setfreq (SI5351A_CAL_CLK_NUM cfg) (target_freq m11)) m11 in
    emit (delay 10) m12
  else m6.

(** One pass of the [for] loop. *)
Definition loop_body (b : build) (cfg : board_config) (calibration_step i : Z)
    (w : list event) (m : machine) : option machine :=
  match wait_for_proceed b w (arm_window b m) with
  | Some m1 => Some (sample_and_correct cfg calibration_step i m1)
  | None => None
  end.

(** [for (i = ...; i < ...; i++)], [n] passes starting at index [i]; pass
    number [k] sees the events of the [k]-th window. *)
Fixpoint calibration_loop (b : build) (cfg : board_config) (calibration_step : Z)
    (n : nat) (i : Z) (ws : list (list event)) (m : machine) : option machine :=
  match n with
  | O => Some m
  | S n' =>
      match loop_body b cfg calibration_step i (hd [] ws) m with
      | Some m1 => calibration_loop b cfg calibration_step n' (i + 1) (tl ws) m1
      | None => None
      end
  end.

(** Lines 306-310. *)
Definition park (cfg : board_config) (m : machine) : machine :=
  let m1 := emit (si5351bx_enable_clk (SI5351A_CAL_CLK_NUM cfg) (SI5351_CLK_OFF cfg)) m in
  emit (si5351bx_setfreq (SI5351A_PARK_CLK_NUM cfg)
                         (Int.wrap_u64 (PARK_FREQ_HZ cfg * 100))) m1.

Definition do_calibration (b : build) (cfg : board_config) (calibration_step : Z)
    (ws : list (list event)) (m : machine) : option machine :=
  match calibration_loop b cfg calibration_step 24 0 ws m with
  | Some m1 => Some (park cfg m1)
  | None => None
  end.

(** ** Sample inputs *)

Definition sampler0 : sampler :=
  mkSampler 0 false false 0 0 0 0 0 0 false false.

Definition cfg0 : board_config := mkConfig 2 1 0 108000000.

Definition machine0 (cal target : Z) : machine :=
  mkMachine sampler0 true cal cal 0 target [] [].

(** A window with [ticks] calibration clock edges between the first and the
    eleventh PPS pulse (both PPS edges are present, so the same window serves
    both builds). *)
Definition window (ticks : nat) : list event :=
  [PPS_rising; PPS_falling] ++ repeat T1_rising ticks
  ++ concat (repeat [PPS_rising; PPS_falling] 10).

(** The machine as the main loop finds it when a window has closed with
    [raw] in the counter and [overflow] in the tally. *)
Definition closed_machine (raw overflow cal target : Z) : machine :=
  mkMachine (mkSampler raw false false 0 1 0 0 overflow 11 true false)
            true cal cal 0 target [] [].

(** A cycle whose sixth window (index 5) sees no calibration clock edge. *)
Definition windows_with_signal_loss : list (list event) :=
  repeat (window 3) 5 ++ [window 0] ++ repeat (window 3) 18.

(** ** Predicates used in the statements *)

(** Does the event request the PPS interrupt of the build?  The external
    interrupt is attached with mode [RISING]; the pin change interrupt fires
    on both edges. *)
Definition requests (b : build) (e : event) : bool :=
  match e, b with
  | T1_rising, _ => false
  | PPS_rising, _ => true
  | PPS_falling, ExternalInterrupt => false
  | PPS_falling, PinChange => true
  end.

Definition requests_count (b : build) (evs : list event) : Z :=
  Z.of_nat (length (filter (requests b) evs)).

(** Qualifying edges of a trace: every request of the external interrupt,
    every odd-numbered request of the pin change interrupt. *)
Definition qualifying_edges (b : build) (evs : list event) : Z :=
  match b with
  | ExternalInterrupt => requests_count b evs
  | PinChange => (requests_count b evs + 1) / 2
  end.

(** Number of handler invocations that make up a whole window. *)
Definition window_requests (b : build) : Z :=
  match b with ExternalInterrupt => 11 | PinChange => 21 end.

(** The sampler between arming and the eleventh pulse, after [t] requests. *)
Definition window_open (b : build) (t : Z) (g : sampler) : Prop :=
  g_calibration_proceed g = false /\ TCCR1B g = 7 /\ trigger_enabled b g = true /\
  match b with
  | ExternalInterrupt => gpsPPScounter g = t
  | PinChange => gpsPPScounter g = (t + 1) / 2 /\ is_PPS_rising_edge g = Z.odd t
  end.

(** The sampler from the eleventh pulse on. *)
Definition window_closed (b : build) (g : sampler) : Prop :=
  g_calibration_proceed g = true /\ TCCR1B g = 0 /\ trigger_enabled b g = false /\
  gpsPPScounter g = 11.

Definition sampler_inv (b : build) (t : Z) (g : sampler) : Prop :=
  0 <= t /\
  ((t < window_requests b /\ window_open b t g) \/
   (window_requests b <= t /\ window_closed b g)).

(** The PPS edges of a trace alternate, the next one being rising when
    [next_rising] holds. *)
Fixpoint pps_alternates (next_rising : bool) (evs : list event) : bool :=
  match evs with
  | [] => true
  | T1_rising :: rest => pps_alternates next_rising rest
  | PPS_rising :: rest => next_rising && pps_alternates false rest
  | PPS_falling :: rest => negb next_rising && pps_alternates true rest
  end.

(** What the main loop and the counter can see of the sampler, whichever the
    build. *)
Record observation : Type := mkObservation {
  obs_TCNT1 : Z;
  obs_overflowCounter : Z;
  obs_gpsPPScounter : Z;
  obs_counting : bool;
  obs_trigger_enabled : bool;
  obs_proceed : bool
}.

Definition observe (b : build) (g : sampler) : observation :=
  mkObservation (TCNT1 g) (overflowCounter g) (gpsPPScounter g)
                (counting g) (trigger_enabled b g) (g_calibration_proceed g).

(** The two builds side by side on the same pin activity: the samplers agree
    on everything but the mask register used, and while the pin change
    interrupt is unmasked its toggle tells which PPS edge comes next. *)
Definition sim (next_rising : bool) (ge gp : sampler) : Prop :=
  TCNT1 ge = TCNT1 gp /\ overflowCounter ge = overflowCounter gp /\
  gpsPPScounter ge = gpsPPScounter gp /\ TCCR1B ge = TCCR1B gp /\
  TIMSK1 ge = TIMSK1 gp /\
  g_calibration_proceed ge = g_calibration_proceed gp /\
  trigger_enabled ExternalInterrupt ge = trigger_enabled PinChange gp /\
  (trigger_enabled PinChange gp = true ->
   is_PPS_rising_edge gp = negb next_rising).

(** Polarity expected after an event. *)
Definition next_polarity (next_rising : bool) (e : event) : bool :=
  match e with
  | T1_rising => next_rising
  | PPS_rising => false
  | PPS_falling => true
  end.

(** The frequency line 269 computes from the sampler as the main loop finds
    it after the wait. *)
Definition measured_of (m : machine) : Z :=
  measured_frequency (Int.to_int16 (TCNT1 (hw m))) (overflowCounter (hw m)).

(** The reads one pass of the loop makes of the reference count. *)
Definition pass_reads (i : Z) : list access :=
  [ mkAccess Read_TCNT1 false true;
    mkAccess Read_overflowCounter true true ]
  ++ (if i =? 0 then [] else [ mkAccess Read_overflowCounter true true ]).

(** ** Initialisation (lines 132-230) *)

(** Bit position of the pin change interrupt enable of port C, from the
    device header. *)
Definition PCIE1 : Z := 1.

(** The registers the initialisation writes besides those of the sampler. *)
Record board : Type := mkBoard {
  mcu : machine;
  TCCR1A : Z;       (* Timer1 waveform generation *)
  PCICR : Z         (* pin change interrupt control *)
}.

Definition on_hw (f : sampler -> sampler) (m : machine) : machine :=
  set_hw (f (hw m)) m.

Definition on_mcu (f : machine -> machine) (bd : board) : board :=
  mkBoard (f (mcu bd)) (TCCR1A bd) (PCICR bd).

Definition set_TCCR1A (v : Z) (bd : board) : board :=
  mkBoard (mcu bd) v (PCICR bd).

Definition set_PCICR (v : Z) (bd : board) : board :=
  mkBoard (mcu bd) (TCCR1A bd) v.

(** Lines 139-152 and 169-182: Timer1 set up as a counter of T1 edges. *)
Definition timer1_init (bd : board) : board :=
  let b1 := on_mcu noInterrupts bd in
  let b2 := set_TCCR1A 0 b1 in
  let b3 := on_mcu (on_hw (set_TCNT1 0)) b2 in
  let b4 := on_mcu (on_hw (set_TCCR1B clock_select_T1)) b3 in
  let b5 := on_mcu (on_hw (set_TIMSK1 (Z.shiftl 1 Bits.TOIE1))) b4 in
  on_mcu interrupts b5.

(** Lines 154-158 and 225-229: park clock off, calibration clock on the
    target frequency. *)
Definition start_calibration_clock (cfg : board_config) (bd : board) : board :=
  let b1 := on_mcu (emit (si5351bx_enable_clk (SI5351A_PARK_CLK_NUM cfg)
                                              (SI5351_CLK_OFF cfg))) bd in
  on_mcu (fun m => emit (si5351bx_setfreq (SI5351A_CAL_CLK_NUM cfg)
                                          (target_freq m)) m) b1.

(** [reset_for_calibration]. *)
Definition reset_for_calibration (cfg : board_config) (bd : board) : board :=
  start_calibration_clock cfg (timer1_init bd).

(** [setup_calibration].  [attachInterrupt] is the routine of the Arduino
    core, which is not part of the repository: it is a parameter. *)
Definition setup_calibration (b : build) (attachInterrupt : machine -> machine)
    (cfg : board_config) (bd : board) : board :=
  let b1 := timer1_init bd in
  let b2 :=
    match b with
    | ExternalInterrupt =>
        let c1 := on_mcu attachInterrupt b1 in
        let c2 := on_mcu noInterrupts c1 in
        let c3 := on_mcu (on_hw (set_EIMSK (Z.shiftl 0 Bits.INT1))) c2 in
        on_mcu interrupts c3
    | PinChange =>
        let c1 := on_mcu noInterrupts b1 in
        let c2 := set_PCICR (Z.lor (PCICR c1) (Z.shiftl 1 PCIE1)) c1 in
        let c3 := on_mcu (on_hw (write_PCIFR (Z.shiftl 1 Bits.PCIF1))) c2 in
        let c4 := on_mcu (on_hw (set_PCMSK1 (Z.shiftl 0 Bits.PCINT13))) c3 in
        let c5 := on_mcu (on_hw (set_is_PPS_rising_edge false)) c4 in
        on_mcu interrupts c5
    end in
  start_calibration_clock cfg b2.

(** ** Quantities used in the further statements *)

Definition is_T1 (e : event) : bool :=
  match e with T1_rising => true | _ => false end.

(** Calibration clock edges in a trace. *)
Definition count_T1 (evs : list event) : Z :=
  Z.of_nat (length (filter is_T1 evs)).

(** The count held by Timer1 and the overflow tally together. *)
Definition reference_count (g : sampler) : Z :=
  TCNT1 g + 65536 * overflowCounter g.

(** The correction factor last handed to the synthesizer driver. *)
Definition last_correction (cs : list call) : option Z :=
  fold_left (fun acc c =>
               match c with
               | si5351bx_set_correction v => Some v
               | _ => acc
               end) cs None.

(** The calls of a pass with index other than 0 (lines 288-299). *)
Definition pass_calls (cfg : board_config) (i : Z) (before after : machine)
  : list call :=
  (if measured_rx_freq after =? 0 then [swerr 8 0] else [])
  ++ [ log_debug_Timer1_info i (overflowCounter (hw after))
                             (Int.to_int16 (TCNT1 (hw after)));
       log_calibration (measured_rx_freq after) (cal_factor before)
                       (cal_factor after);
       si5351bx_set_correction (cal_factor after);
       si5351bx_setfreq (SI5351A_CAL_CLK_NUM cfg) (target_freq before);
       delay 10 ].

(** * Proofs *)

(** Linear arithmetic with division and remainder by constants. *)
Ltac divlia := Z.to_euclidean_division_equations; lia.

(** ** Machine integers *)

Lemma to_int32_id z : Int.int32_range z -> Int.to_int32 z = z.
Proof.
  unfold Int.int32_range, Int.to_int32; intros H.
  rewrite Z.mod_small by lia. lia.
Qed.


Lemma to_int16_small z : 0 <= z < 32768 -> Int.to_int16 z = z.
Proof.
  intros H. unfold Int.to_int16. rewrite Z.mod_small by lia.
  destruct (z <? 32768) eqn:E; [reflexivity | apply Z.ltb_ge in E; lia].
Qed.

Lemma to_int16_large z : 32768 <= z < 65536 -> Int.to_int16 z = z - 65536.
Proof.
  intros H. unfold Int.to_int16. rewrite Z.mod_small by lia.
  destruct (z <? 32768) eqn:E; [apply Z.ltb_lt in E; lia | reflexivity].
Qed.


(** ** The sampler *)

Lemma exec_cons stmt (b : block) g : exec (stmt :: b) g = exec b (stmt g).
Proof. reflexivity. Qed.

Lemma run_cons b e evs g : run b (e :: evs) g = run b evs (step b e g).
Proof. reflexivity. Qed.

Lemma run_app b evs1 evs2 g : run b (evs1 ++ evs2) g = run b evs2 (run b evs1 g).
Proof. unfold run. apply fold_left_app. Qed.

Lemma requests_count_cons b e evs :
  requests_count b (e :: evs) =
  (if requests b e then 1 else 0) + requests_count b evs.
Proof.
  unfold requests_count. cbn [filter].
  destruct (requests b e); cbn [length]; lia.
Qed.

Lemma requests_count_nonneg b evs : 0 <= requests_count b evs.
Proof. unfold requests_count. lia. Qed.

Lemma arm_open b g : window_open b 0 (arm b g).
Proof. destruct b; cbv; auto. Qed.

Lemma arm_inv b g : sampler_inv b 0 (arm b g).
Proof.
  split; [lia | left]. split; [destruct b; cbn; lia | apply arm_open].
Qed.

(** A clock edge leaves the PPS side of the sampler alone. *)
Lemma timer1_tick_frame g :
  let g' := timer1_tick g in
  g_calibration_proceed g' = g_calibration_proceed g /\
  TCCR1B g' = TCCR1B g /\ EIMSK g' = EIMSK g /\ PCMSK1 g' = PCMSK1 g /\
  gpsPPScounter g' = gpsPPScounter g /\
  is_PPS_rising_edge g' = is_PPS_rising_edge g /\ TIMSK1 g' = TIMSK1 g.
Proof.
  unfold timer1_tick.
  destruct (counting g); [|cbn; tauto].
  destruct (TCNT1 g =? 65535); [|cbn; tauto].
  cbn [TIMSK1 set_TCNT1].
  destruct (Z.testbit (TIMSK1 g) Bits.TOIE1); cbn; tauto.
Qed.

Lemma timer1_tick_open b t g : window_open b t g -> window_open b t (timer1_tick g).
Proof.
  pose proof (timer1_tick_frame g) as F. cbv zeta in F.
  destruct F as (F1 & F2 & F3 & F4 & F5 & F6 & _).
  unfold window_open, trigger_enabled.
  rewrite F1, F2, F3, F4, F5, F6. tauto.
Qed.

Lemma closed_not_counting b g : window_closed b g -> counting g = false.
Proof. intros (_ & H & _). unfold counting. rewrite H. reflexivity. Qed.

(** Once the window is closed no event changes the sampler. *)
Lemma step_closed b e g : window_closed b g -> step b e g = g.
Proof.
  intros H. pose proof (closed_not_counting _ _ H) as C.
  destruct H as (_ & _ & T & _).
  destruct e, b; cbn [step]; unfold timer1_tick;
    rewrite ?C, ?T; reflexivity.
Qed.

Lemma run_closed b evs g : window_closed b g -> run b evs g = g.
Proof.
  induction evs as [|e evs IH]; intros H; [reflexivity|].
  rewrite run_cons, step_closed by assumption. auto.
Qed.

Lemma wrap_u16_small z : 0 <= z < 65536 -> Int.wrap_u16 z = z.
Proof. intros H. unfold Int.wrap_u16. apply Z.mod_small. lia. Qed.

(** The counting part of both handlers, on an open window that has seen
    [c] pulses. *)
Lemma count_pulse_spec b g c :
  gpsPPScounter g = c -> 0 <= c < 11 ->
  g_calibration_proceed g = false -> TCCR1B g = 7 -> trigger_enabled b g = true ->
  let g' := count_pulse b g in
  gpsPPScounter g' = c + 1 /\
  (c + 1 < 11 ->
   g_calibration_proceed g' = false /\ TCCR1B g' = 7 /\
   trigger_enabled b g' = true /\ is_PPS_rising_edge g' = is_PPS_rising_edge g) /\
  (c + 1 = 11 -> window_closed b g') /\
  (c = 0 -> TCNT1 g' = 0 /\ overflowCounter g' = 0).
Proof.
  intros Hc Hr Hp Hb Ht.
  destruct g as [tcnt tov pcif tccr timsk eimsk pcmsk ovf pps proceed rising].
  cbn in Hc, Hp, Hb. subst pps proceed tccr.
  unfold count_pulse. cbn [gpsPPScounter set_gpsPPScounter].
  rewrite wrap_u16_small by lia.
  assert (c = 0 \/ c = 10 \/ 1 <= c < 10) as [E|[E|E]] by lia.
  - subst c. destruct b; cbn in Ht |- *; repeat split; intros; try lia; auto.
  - subst c. destruct b; cbn in Ht |- *; unfold window_closed; cbn;
      repeat split; intros; try lia; auto.
  - assert (E1 : (c + 1 =? 1) = false) by (apply Z.eqb_neq; lia).
    assert (E2 : (c + 1 =? 11) = false) by (apply Z.eqb_neq; lia).
    rewrite E1. cbn [gpsPPScounter set_gpsPPScounter]. rewrite E2.
    destruct b; cbn in Ht |- *; repeat split; intros; try lia; auto.
Qed.

Lemma odd_mod2 t : Z.odd t = (t mod 2 =? 1).
Proof. apply Zodd_mod. Qed.

Lemma PCINT1_vect_open t g :
  window_open PinChange t g -> 0 <= t < 21 ->
  let g' := PCINT1_vect g in
  (t + 1 < 21 -> window_open PinChange (t + 1) g') /\
  (t + 1 = 21 -> window_closed PinChange g') /\
  (t = 0 -> TCNT1 g' = 0 /\ overflowCounter g' = 0).
Proof.
  intros (Hp & Hb & Ht & Hc & Hr) Hrange.
  rewrite odd_mod2 in Hr.
  unfold PCINT1_vect. cbn [is_PPS_rising_edge set_is_PPS_rising_edge].
  rewrite Hr.
  destruct (Z.eqb_spec (t mod 2) 1) as [Odd|Even]; cbn [negb].
  - (* falling edge of the toggle: nothing is counted *)
    cbv zeta. repeat split; intros; try divlia; cbn; auto.
    + rewrite Hc. divlia.
    + rewrite odd_mod2. symmetry. apply Z.eqb_neq. divlia.
  - assert (Hc' : gpsPPScounter (set_is_PPS_rising_edge true g) = t / 2).
    { cbn. rewrite Hc. divlia. }
    pose proof (count_pulse_spec PinChange (set_is_PPS_rising_edge true g) (t / 2)
                  Hc' ltac:(divlia) Hp Hb Ht) as S.
    cbv zeta in S |- *. destruct S as (S1 & S2 & S3 & S4).
    split; [|split].
    + intros H. destruct S2 as (A & B & C & R); [divlia|].
      unfold window_open. rewrite S1, R. cbn.
      repeat split; auto; [divlia|].
      rewrite odd_mod2. symmetry. apply Z.eqb_eq. divlia.
    + intros H. apply S3. divlia.
    + intros H. apply S4. divlia.
Qed.

Lemma step_inv b t g e :
  sampler_inv b t g ->
  sampler_inv b (t + (if requests b e then 1 else 0)) (step b e g).
Proof.
  intros (H0 & [(Hlt & Ho) | (Hge & Hc)]).
  2:{ rewrite step_closed by assumption.
      split; [destruct (requests b e); lia|].
      right. split; [destruct (requests b e); lia | assumption]. }
  assert (Ht : trigger_enabled b g = true) by apply Ho.
  destruct e, b; cbn [step requests]; rewrite ?Ht, ?Z.add_0_r.
  - split; [lia | left; split; [assumption | apply timer1_tick_open, Ho]].
  - split; [lia | left; split; [assumption | apply timer1_tick_open, Ho]].
  - cbn in Hlt. destruct Ho as (Hp & Hb & _ & Hc).
    pose proof (count_pulse_spec ExternalInterrupt g t Hc ltac:(lia) Hp Hb Ht) as S.
    cbv zeta in S. destruct S as (S1 & S2 & S3 & _).
    split; [lia|]. unfold PPSinterruptISR. cbn [window_requests].
    destruct (Z.eq_dec (t + 1) 11) as [E|E].
    + right. split; [lia | auto].
    + left. split; [lia|]. unfold window_open. rewrite S1.
      destruct S2 as (A & B & C & _); [lia|]. auto.
  - cbn in Hlt.
    pose proof (PCINT1_vect_open t g Ho ltac:(lia)) as S.
    cbv zeta in S. destruct S as (S1 & S2 & _).
    split; [lia|]. cbn [window_requests].
    destruct (Z.eq_dec (t + 1) 21) as [E|E].
    + right. split; [lia | auto].
    + left. split; [lia | apply S1; lia].
  - split; [lia | left; split; assumption].
  - cbn in Hlt.
    pose proof (PCINT1_vect_open t g Ho ltac:(lia)) as S.
    cbv zeta in S. destruct S as (S1 & S2 & _).
    split; [lia|]. cbn [window_requests].
    destruct (Z.eq_dec (t + 1) 21) as [E|E].
    + right. split; [lia | auto].
    + left. split; [lia | apply S1; lia].
Qed.

Lemma run_inv b evs : forall t g,
  sampler_inv b t g -> sampler_inv b (t + requests_count b evs) (run b evs g).
Proof.
  induction evs as [|e evs IH]; intros t g H.
  - cbn. rewrite Z.add_0_r. assumption.
  - rewrite run_cons, requests_count_cons, Z.add_assoc.
    apply IH, step_inv, H.
Qed.

Lemma armed_run_inv b evs g :
  sampler_inv b (requests_count b evs) (run b evs (arm b g)).
Proof. apply (run_inv b evs 0), arm_inv. Qed.

(** ** The two builds on the same pin activity *)

Lemma sim_observe nr ge gp :
  sim nr ge gp -> observe PinChange gp = observe ExternalInterrupt ge.
Proof.
  intros (H1 & H2 & H3 & H4 & H5 & H6 & H7 & _).
  unfold observe, counting. rewrite H1, H2, H3, H4, H6, H7. reflexivity.
Qed.

Lemma sim_arm g : sim true (arm ExternalInterrupt g) (arm PinChange g).
Proof. cbv. repeat split; reflexivity. Qed.

Lemma sim_tick nr ge gp : sim nr ge gp -> sim nr (timer1_tick ge) (timer1_tick gp).
Proof.
  intros (H1 & H2 & H3 & H4 & H5 & H6 & H7 & H8).
  destruct ge as [tcnt tov pcif tccr timsk eimsk pcmsk ovf pps proceed rising].
  destruct gp as [tcnt' tov' pcif' tccr' timsk' eimsk' pcmsk' ovf' pps' proceed' rising'].
  cbn in H1, H2, H3, H4, H5, H6, H7, H8. subst tcnt' ovf' pps' tccr' timsk' proceed'.
  unfold timer1_tick, counting, sim.
  cbn [TCCR1B TCNT1 TIMSK1 set_TCNT1].
  destruct (Z.land tccr 7 =? 7); [|cbn; auto 10].
  destruct (tcnt =? 65535); [|cbn; auto 10].
  destruct (Z.testbit timsk Bits.TOIE1); cbn; auto 10.
Qed.

(** A counted pulse does the same to both samplers. *)
Lemma sim_count_pulse nr ge gp :
  sim nr ge gp ->
  sim false (count_pulse ExternalInterrupt ge)
            (count_pulse PinChange (set_is_PPS_rising_edge true gp)).
Proof.
  intros (H1 & H2 & H3 & H4 & H5 & H6 & H7 & H8).
  destruct ge as [tcnt tov pcif tccr timsk eimsk pcmsk ovf pps proceed rising].
  destruct gp as [tcnt' tov' pcif' tccr' timsk' eimsk' pcmsk' ovf' pps' proceed' rising'].
  cbn in H1, H2, H3, H4, H5, H6, H7, H8. subst tcnt' ovf' pps' tccr' timsk' proceed'.
  unfold count_pulse, sim.
  cbn [gpsPPScounter set_gpsPPScounter set_is_PPS_rising_edge].
  generalize (Int.wrap_u16 (pps + 1)). intros c.
  destruct (c =? 1) eqn:E1; destruct (c =? 11) eqn:E2;
    cbn -[Z.eqb]; rewrite ?E1, ?E2; cbn -[Z.eqb]; rewrite ?E1, ?E2;
    cbn; auto 10.
Qed.

Lemma sim_step nr e ge gp :
  sim nr ge gp ->
  pps_alternates nr [e] = true ->
  sim (next_polarity nr e) (step ExternalInterrupt e ge) (step PinChange e gp).
Proof.
  intros S A. destruct e; cbn [step next_polarity].
  - apply sim_tick, S.
  - cbn in A. rewrite andb_true_r in A. subst nr.
    pose proof S as (H1 & H2 & H3 & H4 & H5 & H6 & H7 & H8).
    rewrite H7. destruct (trigger_enabled PinChange gp) eqn:T.
    + unfold PPSinterruptISR, PCINT1_vect.
      rewrite (H8 eq_refl). cbn [negb is_PPS_rising_edge set_is_PPS_rising_edge].
      apply (sim_count_pulse true), S.
    + unfold sim. rewrite T. repeat split; auto. discriminate.
  - cbn in A. rewrite andb_true_r in A.
    destruct nr; [discriminate|].
    pose proof S as (H1 & H2 & H3 & H4 & H5 & H6 & H7 & H8).
    destruct (trigger_enabled PinChange gp) eqn:T.
    + unfold PCINT1_vect.
      rewrite (H8 eq_refl). cbn [negb is_PPS_rising_edge set_is_PPS_rising_edge].
      unfold sim.
      change (trigger_enabled PinChange (set_is_PPS_rising_edge false gp))
        with (trigger_enabled PinChange gp).
      cbn [TCNT1 overflowCounter gpsPPScounter TCCR1B TIMSK1
           g_calibration_proceed is_PPS_rising_edge set_is_PPS_rising_edge negb].
      repeat split; auto; congruence.
    + unfold sim. rewrite T. repeat split; auto. discriminate.
Qed.

Lemma pps_alternates_cons nr e evs :
  pps_alternates nr (e :: evs) = true ->
  pps_alternates nr [e] = true /\ pps_alternates (next_polarity nr e) evs = true.
Proof.
  destruct e; cbn; rewrite ?andb_true_r; intros H;
    try (apply andb_true_iff in H; destruct H); auto.
Qed.

Lemma sim_history evs : forall nr ge gp,
  sim nr ge gp -> pps_alternates nr evs = true ->
  map (observe PinChange) (history PinChange evs gp) =
  map (observe ExternalInterrupt) (history ExternalInterrupt evs ge).
Proof.
  induction evs as [|e evs IH]; intros nr ge gp S A; [reflexivity|].
  apply pps_alternates_cons in A. destruct A as [A1 A2].
  pose proof (sim_step nr e ge gp S A1) as S'.
  cbn [history map]. f_equal.
  - eapply sim_observe, S'.
  - eapply IH; eassumption.
Qed.

(** ** Claims about the sampling window *)

Lemma qualifying_lt_11 b evs :
  qualifying_edges b evs < 11 <-> requests_count b evs < window_requests b.
Proof.
  pose proof (requests_count_nonneg b evs).
  destruct b; cbn [qualifying_edges window_requests]; split; intros; divlia.
Qed.

(** C4: from an armed window, in both builds, the completion flag is set
    exactly when eleven qualifying edges have been seen; until then the timer
    counts and the PPS interrupt is unmasked, from then on the Timer1 clock is
    off ([TCCR1B = 0]) and the PPS interrupt is masked; the very first
    qualifying edge zeroes [TCNT1] and [overflowCounter]. *)
Theorem window_closes_on_eleventh_edge (b : build) (g : sampler) (evs : list event) :
  let s := run b evs (arm b g) in
  let n := qualifying_edges b evs in
  (n < 11 ->
   g_calibration_proceed s = false /\ counting s = true /\
   trigger_enabled b s = true /\ gpsPPScounter s = n) /\
  (11 <= n ->
   g_calibration_proceed s = true /\ TCCR1B s = 0 /\ counting s = false /\
   trigger_enabled b s = false /\ gpsPPScounter s = 11) /\
  (forall e, n = 0 -> requests b e = true ->
   TCNT1 (step b e s) = 0 /\ overflowCounter (step b e s) = 0 /\
   gpsPPScounter (step b e s) = 1).
Proof.
  intros s n. subst s n.
  pose proof (armed_run_inv b evs g) as (H0 & Inv).
  pose proof (qualifying_lt_11 b evs) as Q.
  split; [|split].
  - intros Hn. apply Q in Hn.
    destruct Inv as [(_ & Hp & Hb & Ht & Hc) | (Hge & _)]; [|lia].
    unfold counting. rewrite Hb. repeat split; auto.
    destruct b; cbn [qualifying_edges]; tauto.
  - intros Hn.
    destruct Inv as [(Hlt & _) | (_ & Hc)]; [apply Q in Hlt; lia|].
    pose proof (closed_not_counting _ _ Hc).
    destruct Hc as (Hp & Hb & Ht & Hc). auto 10.
  - intros e Hn He.
    assert (R0 : requests_count b evs = 0).
    { destruct b; cbn [qualifying_edges] in Hn; divlia. }
    rewrite R0 in Inv.
    destruct Inv as [(_ & Ho) | (Hge & _)]; [|destruct b; cbn in Hge; lia].
    assert (Ht : trigger_enabled b (run b evs (arm b g)) = true) by apply Ho.
    destruct b.
    + destruct e; try discriminate. cbn [step]. rewrite Ht.
      destruct Ho as (Hp & Hb & _ & Hc).
      pose proof (count_pulse_spec ExternalInterrupt _ 0 Hc ltac:(lia) Hp Hb Ht) as S.
      cbv zeta in S. destruct S as (S1 & _ & _ & S4).
      unfold PPSinterruptISR. rewrite S1. destruct S4; auto.
    + pose proof (PCINT1_vect_open 0 _ Ho ltac:(lia)) as S.
      cbv zeta in S. destruct S as (S1 & _ & S3).
      destruct S1 as (_ & _ & _ & Hc & _); [lia|].
      destruct e; try discriminate; cbn [step]; rewrite Ht;
        rewrite Hc; destruct S3; auto.
Qed.

Lemma window_closes_on_eleventh_edge_witness :
  g_calibration_proceed
    (run PinChange (window 3) (arm PinChange sampler0)) = true /\
  g_calibration_proceed
    (run ExternalInterrupt (firstn 23 (window 3)) (arm ExternalInterrupt sampler0))
  = false.
Proof.
  split.
  - apply (window_closes_on_eleventh_edge PinChange sampler0 (window 3)).
    vm_compute. discriminate.
  - apply (window_closes_on_eleventh_edge ExternalInterrupt sampler0
             (firstn 23 (window 3))).
    vm_compute. reflexivity.
Defined.

(** C5: with the PPS pin delivering a rising and a falling edge per pulse,
    the first edge after arming being a rising one, the pin change handler
    counts the odd-numbered edges only (the counter is half the number of
    edges, rounded up, through the twenty-first edge that closes the window)
    and after every event the pin change build and the external interrupt
    build show the same pulse count, reference count, overflow tally, clock
    and trigger enables and completion flag. *)
Theorem toggle_synthesis_matches_true_edge (g : sampler) (evs : list event) :
  pps_alternates true evs = true ->
  (requests_count PinChange evs <= 21 ->
   gpsPPScounter (run PinChange evs (arm PinChange g)) =
   (requests_count PinChange evs + 1) / 2) /\
  map (observe PinChange) (history PinChange evs (arm PinChange g)) =
  map (observe ExternalInterrupt)
      (history ExternalInterrupt evs (arm ExternalInterrupt g)).
Proof.
  intros A. split.
  - intros Hle.
    pose proof (armed_run_inv PinChange evs g) as (H0 & Inv).
    cbn [window_requests] in Inv.
    destruct Inv as [(_ & _ & _ & _ & Hc & _) | (Hge & _ & _ & _ & Hc)].
    + exact Hc.
    + rewrite Hc. divlia.
  - apply (sim_history evs true); [apply sim_arm | exact A].
Qed.

Lemma toggle_synthesis_matches_true_edge_witness :
  map obs_gpsPPScounter
      (map (observe PinChange)
           (history PinChange (window 2) (arm PinChange sampler0))) =
  map obs_gpsPPScounter
      (map (observe ExternalInterrupt)
           (history ExternalInterrupt (window 2) (arm ExternalInterrupt sampler0))).
Proof.
  pose proof (toggle_synthesis_matches_true_edge sampler0 (window 2) eq_refl)
    as [_ H].
  rewrite H. reflexivity.
Defined.


(** ** The controller *)

Lemma arm_window_frame b m :
  let m' := arm_window b m in
  hw m' = arm b (hw m) /\ SREG_I m' = true /\
  cal_factor m' = cal_factor m /\ target_freq m' = target_freq m /\
  calls m' = calls m /\ reads m' = reads m.
Proof. cbn. auto 10. Qed.

Lemma wait_for_proceed_frame b w : forall m m',
  wait_for_proceed b w m = Some m' ->
  g_calibration_proceed (hw m') = true /\
  (exists seen, hw m' = run b seen (hw m)) /\
  SREG_I m' = SREG_I m /\
  cal_factor m' = cal_factor m /\ target_freq m' = target_freq m /\
  calls m' = calls m /\ reads m' = reads m.
Proof.
  induction w as [|e w IH]; intros m m' H; cbn [wait_for_proceed] in H;
    destruct (g_calibration_proceed (hw m)) eqn:P.
  - inversion H; subst. split; [assumption|]. split; [exists []; reflexivity | auto 10].
  - discriminate.
  - inversion H; subst. split; [assumption|]. split; [exists []; reflexivity | auto 10].
  - apply IH in H. cbn in H.
    destruct H as (H1 & (seen & H2) & H3). split; [assumption|].
    split; [exists (e :: seen); exact H2 | exact H3].
Qed.

Lemma sample_and_correct_frame cfg step i m :
  let m' := sample_and_correct cfg step i m in
  hw m' = hw m /\ target_freq m' = target_freq m /\
  measured_rx_freq m' = measured_of m /\
  reads m' =
    reads m
    ++ [ mkAccess Read_TCNT1 false (g_calibration_proceed (hw m));
         mkAccess Read_overflowCounter true (g_calibration_proceed (hw m)) ]
    ++ (if i =? 0 then []
        else [ mkAccess Read_overflowCounter true (g_calibration_proceed (hw m)) ]).
Proof.
  unfold sample_and_correct, huff_n_puff, measured_of.
  cbn -[Z.eqb Z.ltb measured_frequency Int.to_int16 Int.to_int32].
  destruct (i =? 0); cbn -[Z.eqb Z.ltb measured_frequency Int.to_int16 Int.to_int32].
  - rewrite <- !app_assoc. cbn. auto.
  - destruct (_ =? 0); cbn -[Z.eqb Z.ltb measured_frequency Int.to_int16 Int.to_int32];
      [rewrite <- !app_assoc; cbn; auto|].
    destruct (_ <? _);
      cbn -[Z.eqb Z.ltb measured_frequency Int.to_int16 Int.to_int32];
      destruct (_ <? _);
      cbn -[Z.eqb Z.ltb measured_frequency Int.to_int16 Int.to_int32];
      rewrite <- !app_assoc; cbn; auto.
Qed.

Lemma sample_and_correct_cal cfg step i m :
  cal_factor (sample_and_correct cfg step i m) =
  if i =? 0 then cal_factor m
  else if measured_of m =? 0 then cal_factor m
  else if measured_of m <? target_freq m
       then Int.to_int32 (cal_factor m - step)
       else if target_freq m <? measured_of m
            then Int.to_int32 (cal_factor m + step)
            else cal_factor m.
Proof.
  unfold sample_and_correct, huff_n_puff, measured_of.
  cbn -[Z.eqb Z.ltb measured_frequency Int.to_int16 Int.to_int32].
  destruct (i =? 0); cbn -[Z.eqb Z.ltb measured_frequency Int.to_int16 Int.to_int32];
    [reflexivity|].
  destruct (_ =? 0); cbn -[Z.eqb Z.ltb measured_frequency Int.to_int16 Int.to_int32];
    [reflexivity|].
  destruct (Z.ltb_spec (measured_frequency (Int.to_int16 (TCNT1 (hw m)))
                          (overflowCounter (hw m))) (target_freq m)) as [L|L];
    cbn -[Z.eqb Z.ltb measured_frequency Int.to_int16 Int.to_int32].
  - destruct (Z.ltb_spec (target_freq m)
                (measured_frequency (Int.to_int16 (TCNT1 (hw m)))
                   (overflowCounter (hw m)))) as [L'|L'];
      cbn -[Z.eqb Z.ltb measured_frequency Int.to_int16 Int.to_int32];
      [lia | reflexivity].
  - destruct (_ <? _); reflexivity.
Qed.

Lemma sample_and_correct_calls_0 cfg step m :
  calls (sample_and_correct cfg step 0 m) = calls m.
Proof. reflexivity. Qed.

(** The wait ends once the events delivered set the flag. *)
Lemma wait_for_proceed_completes b w : forall m,
  g_calibration_proceed (run b w (hw m)) = true ->
  exists m', wait_for_proceed b w m = Some m'.
Proof.
  induction w as [|e w IH]; intros m H; cbn [wait_for_proceed];
    destruct (g_calibration_proceed (hw m)) eqn:P; eauto.
  cbn in H. congruence.
Qed.

(** A pass returns when its window delivers eleven qualifying edges. *)
Lemma loop_body_completes b cfg step i w m :
  11 <= qualifying_edges b w ->
  exists m', loop_body b cfg step i w m = Some m'.
Proof.
  intros Hq. unfold loop_body.
  destruct (wait_for_proceed_completes b w (arm_window b m)) as [m1 W].
  - change (hw (arm_window b m)) with (arm b (hw m)).
    pose proof (armed_run_inv b w (hw m)) as (_ & [(Hlt & _) | (_ & Hc)]).
    + apply qualifying_lt_11 in Hlt. lia.
    + apply Hc.
  - rewrite W. eauto.
Qed.

(** The whole cycle returns when each of its 24 windows does. *)
Lemma calibration_loop_completes b cfg step : forall n i ws m,
  (forall k, (k < n)%nat -> 11 <= qualifying_edges b (nth k ws [])) ->
  exists m', calibration_loop b cfg step n i ws m = Some m'.
Proof.
  induction n as [|n IH]; intros i ws m H; cbn [calibration_loop]; [eauto|].
  destruct (loop_body_completes b cfg step i (hd [] ws) m) as [m1 L].
  - specialize (H 0%nat ltac:(lia)). destruct ws; exact H.
  - rewrite L. apply IH. intros k Hk.
    specialize (H (S k) ltac:(lia)). destruct ws; [destruct k|]; exact H.
Qed.

Lemma do_calibration_completes b cfg step ws m :
  (forall k, (k < 24)%nat -> 11 <= qualifying_edges b (nth k ws [])) ->
  exists m', do_calibration b cfg step ws m = Some m'.
Proof.
  intros H. unfold do_calibration.
  destruct (calibration_loop_completes b cfg step 24 0 ws m H) as [m1 L].
  rewrite L. eauto.
Qed.

Lemma loop_body_inv b cfg step i w m m' :
  loop_body b cfg step i w m = Some m' ->
  exists m1,
    m' = sample_and_correct cfg step i m1 /\
    g_calibration_proceed (hw m1) = true /\
    (exists seen, hw m1 = run b seen (arm b (hw m))) /\
    cal_factor m1 = cal_factor m /\ target_freq m1 = target_freq m /\
    calls m1 = calls m /\ reads m1 = reads m.
Proof.
  unfold loop_body. intros H.
  destruct (wait_for_proceed b w (arm_window b m)) as [m1|] eqn:W; [|discriminate].
  inversion H; subst m'; clear H. exists m1.
  apply wait_for_proceed_frame in W.
  destruct W as (W1 & (seen & W2) & _ & W4 & W5 & W6 & W7).
  pose proof (arm_window_frame b m) as A. cbv zeta in A.
  destruct A as (A1 & _ & A3 & A4 & A5 & A6).
  rewrite A1 in W2. rewrite A3 in W4. rewrite A4 in W5. rewrite A5 in W6.
  rewrite A6 in W7. split; [reflexivity|]. split; [assumption|].
  split; [exists seen; assumption | auto].
Qed.

(** The correction factor after a pass, from the values the pass stored. *)
Lemma loop_body_cal b cfg step i w m m' :
  loop_body b cfg step i w m = Some m' ->
  target_freq m' = target_freq m /\
  cal_factor m' =
  if i =? 0 then cal_factor m
  else if measured_rx_freq m' =? 0 then cal_factor m
  else if measured_rx_freq m' <? target_freq m
       then Int.to_int32 (cal_factor m - step)
       else if target_freq m <? measured_rx_freq m'
            then Int.to_int32 (cal_factor m + step)
            else cal_factor m.
Proof.
  intros H. apply loop_body_inv in H.
  destruct H as (m1 & -> & _ & _ & C & T & _).
  pose proof (sample_and_correct_frame cfg step i m1) as F. cbv zeta in F.
  destruct F as (_ & F2 & F3 & _).
  rewrite sample_and_correct_cal, F2, F3, T, C. auto.
Qed.

(** Whatever a pass measures, the correction factor moves by nothing or by
    one step modulo 2^32. *)
Lemma loop_body_cal_cases b cfg step i w m m' :
  loop_body b cfg step i w m = Some m' ->
  cal_factor m' = cal_factor m \/
  (i <> 0 /\ (cal_factor m' = Int.to_int32 (cal_factor m - step) \/
              cal_factor m' = Int.to_int32 (cal_factor m + step))).
Proof.
  intros H. apply loop_body_cal in H. destruct H as [_ H]. rewrite H.
  destruct (Z.eqb_spec i 0); [auto|].
  destruct (_ =? 0); [auto|].
  destruct (_ <? _); [auto|].
  destruct (_ <? _); auto.
Qed.

Lemma loop_body_step_bound b cfg step i w m m' :
  loop_body b cfg step i w m = Some m' ->
  0 <= step ->
  Int.int32_range (cal_factor m - step) -> Int.int32_range (cal_factor m + step) ->
  Z.abs (cal_factor m' - cal_factor m) <= step /\ (i = 0 -> cal_factor m' = cal_factor m).
Proof.
  intros H Hs Hlo Hhi.
  destruct (loop_body_cal_cases _ _ _ _ _ _ _ H) as [E|(Hi & [E|E])]; rewrite E.
  - split; [lia | auto].
  - rewrite to_int32_id by assumption. split; [lia | intros; contradiction].
  - rewrite to_int32_id by assumption. split; [lia | intros; contradiction].
Qed.

Lemma calibration_loop_bound b cfg step c0 : forall n i ws m m' B,
  calibration_loop b cfg step n i ws m = Some m' ->
  0 <= step -> 0 <= B ->
  Z.abs (cal_factor m - c0) <= B ->
  Int.int32_range (c0 - (B + Z.of_nat n * step)) ->
  Int.int32_range (c0 + (B + Z.of_nat n * step)) ->
  Z.abs (cal_factor m' - c0) <= B + Z.of_nat n * step.
Proof.
  unfold Int.int32_range.
  induction n as [|n IH]; intros i ws m m' B H Hs HB Hm Hlo Hhi.
  - cbn in H. inversion H; subst. lia.
  - cbn [calibration_loop] in H.
    destruct (loop_body b cfg step i (hd [] ws) m) as [m1|] eqn:L; [|discriminate].
    rewrite Nat2Z.inj_succ, Z.mul_succ_l in *.
    assert (0 <= Z.of_nat n * step) by (apply Z.mul_nonneg_nonneg; lia).
    pose proof (loop_body_step_bound _ _ _ _ _ _ _ L Hs) as S.
    unfold Int.int32_range in S. destruct S as [S _]; [lia | lia |].
    replace (B + (Z.of_nat n * step + step)) with ((B + step) + Z.of_nat n * step) by lia.
    apply (IH (i + 1) (tl ws) m1 m' (B + step) H); lia.
Qed.

(** ** Claims about the controller *)

(** A closed counter value below 2^15 with a 16-bit tally is measured
    exactly. *)
Lemma measured_frequency_exact_low raw overflow :
  0 <= raw < 32768 -> 0 <= overflow < 65536 ->
  measured_frequency (Int.to_int16 raw) overflow = (raw + 65536 * overflow) * 10.
Proof.
  intros Hr Ho. rewrite to_int16_small by assumption.
  unfold measured_frequency, Int.wrap_u64.
  rewrite (Z.mod_small (raw + 65536 * overflow)) by lia.
  apply Z.mod_small. lia.
Qed.

(** A closed counter value from 2^15 on is taken as negative. *)
Lemma measured_frequency_high raw overflow :
  32768 <= raw < 65536 -> 1 <= overflow < 65536 ->
  measured_frequency (Int.to_int16 raw) overflow
  = (raw + 65536 * overflow) * 10 - 655360.
Proof.
  intros Hr Ho. rewrite to_int16_large by assumption.
  unfold measured_frequency, Int.wrap_u64.
  rewrite (Z.mod_small (raw - 65536 + 65536 * overflow)) by lia.
  rewrite Z.mod_small by lia. lia.
Qed.

(** C1 (as amended): on a pass with index other than 0 and a nonzero
    measured frequency, a measurement below the target replaces the
    correction factor by [cal_factor - calibration_step] reduced to
    [int32_t], which is an exact decrease by the step whenever that value is
    representable; a measurement above the target does the same with
    [cal_factor + calibration_step]; a measurement equal to the target
    leaves the correction factor as it was. *)
Theorem huff_n_puff_applied b cfg step i w m m' :
  loop_body b cfg step i w m = Some m' ->
  i <> 0 ->
  measured_rx_freq m' <> 0 ->
  (measured_rx_freq m' < target_freq m' ->
   cal_factor m' = Int.to_int32 (cal_factor m - step) /\
   (Int.int32_range (cal_factor m - step) -> cal_factor m' = cal_factor m - step)) /\
  (target_freq m' < measured_rx_freq m' ->
   cal_factor m' = Int.to_int32 (cal_factor m + step) /\
   (Int.int32_range (cal_factor m + step) -> cal_factor m' = cal_factor m + step)) /\
  (measured_rx_freq m' = target_freq m' -> cal_factor m' = cal_factor m).
Proof.
  intros H Hi Hm. apply loop_body_cal in H. destruct H as [T C].
  rewrite T. rewrite C.
  destruct (Z.eqb_spec i 0); [contradiction|].
  destruct (Z.eqb_spec (measured_rx_freq m') 0); [contradiction|].
  destruct (Z.ltb_spec (measured_rx_freq m') (target_freq m));
    destruct (Z.ltb_spec (target_freq m) (measured_rx_freq m'));
    repeat split; intros; try lia; auto using to_int32_id.
Qed.

Lemma huff_n_puff_applied_witness :
  exists m',
    loop_body ExternalInterrupt cfg0 50 1 (window 3) (machine0 0 320000000) = Some m' /\
    cal_factor m' = -50.
Proof.
  eexists. split; [vm_compute; reflexivity|].
  eapply (huff_n_puff_applied ExternalInterrupt cfg0 50 1 (window 3)
            (machine0 0 320000000)).
  - vm_compute. reflexivity.
  - discriminate.
  - vm_compute. discriminate.
  - vm_compute. reflexivity.
  - vm_compute. split; discriminate.
Defined.

(** C1, counterexample: with the correction factor at the least [int32_t]
    value and a step of 1, a measurement below the target does not lower the
    correction factor by the step: it wraps to the greatest value. *)
Lemma huff_n_puff_wraps :
  exists m',
    loop_body ExternalInterrupt cfg0 1 1 (window 3)
              (machine0 (-2147483648) 320000000) = Some m' /\
    measured_rx_freq m' <> 0 /\
    measured_rx_freq m' < target_freq m' /\
    cal_factor m' <> -2147483648 - 1 /\
    cal_factor m' = 2147483647.
Proof.
  eexists. split; [vm_compute; reflexivity|].
  vm_compute. repeat split; congruence.
Qed.

(** C6 (as amended): on a pass with index other than 0 and a nonzero
    measured frequency, with a positive step and the new value representable
    as [int32_t], a measurement above the target raises the correction
    factor by exactly the step and a measurement below the target lowers it
    by exactly the step. *)
Theorem correction_follows_error_sign b cfg step i w m m' :
  loop_body b cfg step i w m = Some m' ->
  i <> 0 ->
  measured_rx_freq m' <> 0 ->
  0 < step ->
  (target_freq m' < measured_rx_freq m' ->
   Int.int32_range (cal_factor m + step) ->
   cal_factor m' = cal_factor m + step /\ cal_factor m < cal_factor m') /\
  (measured_rx_freq m' < target_freq m' ->
   Int.int32_range (cal_factor m - step) ->
   cal_factor m' = cal_factor m - step /\ cal_factor m' < cal_factor m).
Proof.
  intros H Hi Hm Hs. apply loop_body_cal in H. destruct H as [T C].
  rewrite T. rewrite C.
  destruct (Z.eqb_spec i 0); [contradiction|].
  destruct (Z.eqb_spec (measured_rx_freq m') 0); [contradiction|].
  destruct (Z.ltb_spec (measured_rx_freq m') (target_freq m));
    destruct (Z.ltb_spec (target_freq m) (measured_rx_freq m'));
    split; intros; try lia; rewrite to_int32_id by assumption; lia.
Qed.

Lemma correction_follows_error_sign_witness :
  exists m',
    loop_body PinChange cfg0 50 1 (window 3) (machine0 0 10) = Some m' /\
    cal_factor m' = 50.
Proof.
  eexists. split; [vm_compute; reflexivity|].
  eapply (correction_follows_error_sign PinChange cfg0 50 1 (window 3)
            (machine0 0 10)).
  - vm_compute. reflexivity.
  - discriminate.
  - vm_compute. discriminate.
  - reflexivity.
  - vm_compute. reflexivity.
  - vm_compute. split; discriminate.
Defined.

(** C6, counterexample: a measurement of 30 against a target of 10 with a
    step of 50 takes the correction factor from 0 to 50, it does not
    decrease; a measurement of 0 below the target leaves the correction
    factor alone; with a step of 0 a measurement below the target is no
    strict change. *)
Lemma correction_rises_above_target :
  (exists m',
     loop_body ExternalInterrupt cfg0 50 1 (window 3) (machine0 0 10) = Some m' /\
     target_freq m' < measured_rx_freq m' /\
     cal_factor m' = 50 /\
     ~ (cal_factor m' = 0 - 50) /\ ~ (cal_factor m' < 0)) /\
  (exists m',
     loop_body ExternalInterrupt cfg0 50 1 (window 0) (machine0 0 10) = Some m' /\
     measured_rx_freq m' < target_freq m' /\
     ~ (cal_factor m' > 0)) /\
  (exists m',
     loop_body ExternalInterrupt cfg0 0 1 (window 3) (machine0 0 320000000) = Some m' /\
     measured_rx_freq m' < target_freq m' /\
     ~ (cal_factor m' > 0)).
Proof.
  split; [|split]; eexists; (split; [vm_compute; reflexivity|]);
    vm_compute; repeat split; congruence.
Qed.

(** C7: the pass with index 0 leaves the correction factor as it was and
    makes no call to the synthesizer driver or to the logger, whatever the
    window delivers. *)
Theorem iteration_zero_discarded b cfg step w m m' :
  loop_body b cfg step 0 w m = Some m' ->
  cal_factor m' = cal_factor m /\ calls m' = calls m.
Proof.
  intros H. apply loop_body_inv in H.
  destruct H as (m1 & -> & _ & _ & C & _ & K & _).
  rewrite sample_and_correct_cal, sample_and_correct_calls_0. cbn. auto.
Qed.

Lemma iteration_zero_discarded_witness :
  exists m',
    loop_body PinChange cfg0 50 0 (window 3) (machine0 7 320000000) = Some m' /\
    cal_factor m' = 7 /\ calls m' = [].
Proof.
  eexists. split; [vm_compute; reflexivity|].
  eapply (iteration_zero_discarded PinChange cfg0 50 (window 3)
            (machine0 7 320000000)).
  vm_compute. reflexivity.
Defined.

(** C8 (as amended): every read the main loop makes of [TCNT1] or
    [overflowCounter] in a pass comes after the wait has seen the completion
    flag, on a closed sampler; the read of [TCNT1] is made with interrupts
    disabled, the reads of [overflowCounter] (line 269, and line 291 on the
    passes with index other than 0) with interrupts enabled. *)
Theorem reference_count_read_after_completion b cfg step i w m m' :
  loop_body b cfg step i w m = Some m' ->
  reads m' = reads m ++ pass_reads i /\
  window_closed b (hw m') /\
  Forall (fun a => acc_window_complete a = true) (pass_reads i) /\
  Forall (fun a => acc_interrupts_enabled a =
                   match acc_var a with
                   | Read_TCNT1 => false
                   | Read_overflowCounter => true
                   end) (pass_reads i).
Proof.
  intros H. apply loop_body_inv in H.
  destruct H as (m1 & -> & P & (seen & S) & _ & _ & _ & R).
  pose proof (sample_and_correct_frame cfg step i m1) as F. cbv zeta in F.
  destruct F as (F1 & _ & _ & F4).
  rewrite F4, P, R, F1. split; [reflexivity|]. split.
  - rewrite S.
    pose proof (armed_run_inv b seen (hw m)) as (_ & [(_ & Ho) | (_ & Hc)]).
    + destruct Ho as (Hf & _). rewrite S in P. congruence.
    + exact Hc.
  - unfold pass_reads. destruct (i =? 0); cbn [app]; split;
      repeat constructor.
Qed.

Lemma reference_count_read_after_completion_witness :
  exists m',
    loop_body ExternalInterrupt cfg0 50 1 (window 3) (machine0 0 320000000) = Some m' /\
    reads m' = pass_reads 1.
Proof.
  eexists. split; [vm_compute; reflexivity|].
  eapply (reference_count_read_after_completion ExternalInterrupt cfg0 50 1
            (window 3) (machine0 0 320000000)).
  vm_compute. reflexivity.
Defined.

(** C8, counterexample: a pass reads [overflowCounter] with interrupts
    enabled, outside the critical section that guards the read of [TCNT1]. *)
Lemma overflow_tally_read_with_interrupts_enabled :
  exists m',
    loop_body ExternalInterrupt cfg0 50 0 (window 3) (machine0 0 320000000) = Some m' /\
    In (mkAccess Read_overflowCounter true true) (reads m') /\
    ~ Forall (fun a => acc_interrupts_enabled a = false) (reads m').
Proof.
  eexists. split; [vm_compute; reflexivity|]. split.
  - vm_compute. auto.
  - intros F. inversion F as [|a l _ F']. inversion F' as [|a' l' E _].
    discriminate E.
Qed.

(** C9 (as amended): when the correction factor at entry is at least 23
    steps away from both ends of the [int32_t] range, each pass moves it by
    at most one step, the pass with index 0 does not move it, and at the end
    of [do_calibration] it is within 23 steps of its value at entry. *)
Theorem correction_within_23_steps b cfg step ws m m' :
  do_calibration b cfg step ws m = Some m' ->
  0 <= step ->
  Int.int32_range (cal_factor m - 23 * step) ->
  Int.int32_range (cal_factor m + 23 * step) ->
  Z.abs (cal_factor m' - cal_factor m) <= 23 * step /\
  (forall i w m1 m2,
     loop_body b cfg step i w m1 = Some m2 ->
     Int.int32_range (cal_factor m1 - step) ->
     Int.int32_range (cal_factor m1 + step) ->
     Z.abs (cal_factor m2 - cal_factor m1) <= step /\
     (i = 0 -> cal_factor m2 = cal_factor m1)).
Proof.
  intros H Hs Hlo Hhi. split.
  - unfold do_calibration in H.
    destruct (calibration_loop b cfg step 24 0 ws m) as [mf|] eqn:L; [|discriminate].
    inversion H; subst m'; clear H.
    change (cal_factor (park cfg mf)) with (cal_factor mf).
    cbn [calibration_loop] in L.
    destruct (loop_body b cfg step 0 (hd [] ws) m) as [m1|] eqn:L0; [|discriminate].
    pose proof (loop_body_cal_cases _ _ _ _ _ _ _ L0) as [E|(Hi & _)];
      [|contradiction].
    change 23 with (0 + Z.of_nat 23 * 1) at 1.
    pose proof (calibration_loop_bound b cfg step (cal_factor m) 23 (0 + 1)
                  (tl ws) m1 mf 0 L Hs ltac:(lia)) as B.
    rewrite E in B. change (Z.of_nat 23) with 23 in B.
    rewrite Z.add_0_l in B. apply B; [lia | assumption | assumption].
  - intros i w m1 m2 L Hl Hh. eapply loop_body_step_bound; eassumption.
Qed.

Lemma correction_within_23_steps_witness :
  exists m',
    do_calibration PinChange cfg0 50 (repeat (window 3) 24)
                   (machine0 0 320000000) = Some m' /\
    Z.abs (cal_factor m' - 0) <= 23 * 50.
Proof.
  eexists. split; [vm_compute; reflexivity|].
  eapply (correction_within_23_steps PinChange cfg0 50 (repeat (window 3) 24)
            (machine0 0 320000000)).
  - vm_compute. reflexivity.
  - lia.
  - vm_compute. split; discriminate.
  - vm_compute. split; discriminate.
Defined.

(** C9, counterexample: from the least [int32_t] value with a step of 1, a
    cycle of measurements below the target ends 4294967273 away from the
    value at entry, not within 23. *)
Lemma correction_wraps_past_23_steps :
  exists m',
    do_calibration ExternalInterrupt cfg0 1 (repeat (window 3) 24)
                   (machine0 (-2147483648) 320000000) = Some m' /\
    cal_factor m' = 2147483625 /\
    ~ (Z.abs (cal_factor m' - -2147483648) <= 23 * 1).
Proof.
  eexists. split; [vm_compute; reflexivity|].
  vm_compute. split; [reflexivity | intros H; apply H; reflexivity].
Qed.

(** C2: a window of 40000 calibration clock edges leaves 40000 in [TCNT1]
    and 0 in [overflowCounter]; the pass stores 18446744073709296256, not
    400000.  With a tally of 100 the same counter value gives 65280640, not
    65936000. *)
Theorem measured_frequency_high_count_off :
  (exists m',
     loop_body ExternalInterrupt cfg0 50 1 (window (Z.to_nat 40000))
               (machine0 0 320000000) = Some m' /\
     TCNT1 (hw m') = 40000 /\ overflowCounter (hw m') = 0 /\
     measured_rx_freq m' = 18446744073709296256 /\
     measured_rx_freq m' <> (40000 + 65536 * 0) * 10) /\
  measured_rx_freq
    (sample_and_correct cfg0 50 1 (closed_machine 40000 100 0 320000000))
  = 65280640 /\
  (40000 + 65536 * 100) * 10 = 65936000.
Proof.
  split; [|split; vm_compute; reflexivity].
  eexists. split; [vm_compute; reflexivity|].
  vm_compute. repeat split; congruence.
Qed.

(** C3: in a cycle whose window of index 5 measures zero, the pass calls
    [swerr(8, 0)] and keeps the correction factor of pass 4, but the loop goes
    on: the remaining 18 passes keep correcting and the cycle ends with a
    correction factor of -1100, not the -200 of pass 4. *)
Theorem signal_loss_does_not_abort :
  exists m4 m5 m',
    calibration_loop ExternalInterrupt cfg0 50 5 0 windows_with_signal_loss
                     (machine0 0 320000000) = Some m4 /\
    cal_factor m4 = -200 /\
    loop_body ExternalInterrupt cfg0 50 5 (window 0) m4 = Some m5 /\
    measured_rx_freq m5 = 0 /\
    In (swerr 8 0) (calls m5) /\
    cal_factor m5 = -200 /\
    do_calibration ExternalInterrupt cfg0 50 windows_with_signal_loss
                   (machine0 0 320000000) = Some m' /\
    cal_factor m' = -1100 /\
    length (calls m') = (length (calls m5) + 18 * 5 + 2)%nat.
Proof.
  eexists. eexists. eexists.
  split; [vm_compute; reflexivity|].
  split; [vm_compute; reflexivity|].
  split; [vm_compute; reflexivity|].
  split; [vm_compute; reflexivity|].
  split; [vm_compute; auto 30|].
  split; [vm_compute; reflexivity|].
  split; [vm_compute; reflexivity|].
  split; vm_compute; reflexivity.
Qed.

(** C10: in both handlers the block run on the eleventh pulse masks the PPS
    interrupt and stops the Timer1 clock before it sets
    [g_calibration_proceed] (after any prefix of the block, a set flag
    implies both), and once the flag is set in an armed window no later clock
    or PPS edge changes [TCNT1] or [overflowCounter], nor does the rest of
    the pass of the main loop. *)
Theorem completion_freezes_reference_count
    (b : build) (g : sampler) (evs later : list event) :
  let s := run b evs (arm b g) in
  g_calibration_proceed s = true ->
  (forall g0 k,
     g_calibration_proceed g0 = false ->
     let s0 := exec (firstn k (window_close b)) g0 in
     g_calibration_proceed s0 = true ->
     TCCR1B s0 = 0 /\ trigger_enabled b s0 = false) /\
  TCNT1 (run b later s) = TCNT1 s /\
  overflowCounter (run b later s) = overflowCounter s /\
  (forall cfg step i m, hw (sample_and_correct cfg step i m) = hw m).
Proof.
  intros s Hp. split.
  - intros g0 k H0.
    destruct b; destruct k as [|[|[|[|k]]]];
      cbn [window_close firstn exec fold_left]; rewrite ?firstn_nil;
      cbn; intros; try congruence; auto.
  - subst s.
    pose proof (armed_run_inv b evs g) as (_ & [(_ & Ho) | (_ & Hc)]).
    + destruct Ho as (Hf & _). congruence.
    + rewrite run_closed by assumption.
      repeat split; auto. intros. apply sample_and_correct_frame.
Qed.

Lemma completion_freezes_reference_count_witness :
  TCNT1 (run ExternalInterrupt [T1_rising; PPS_rising; T1_rising]
           (run ExternalInterrupt (window 3) (arm ExternalInterrupt sampler0))) = 3.
Proof.
  pose proof (completion_freezes_reference_count ExternalInterrupt sampler0
                (window 3) [T1_rising; PPS_rising; T1_rising] eq_refl) as H.
  destruct H as (_ & H & _). rewrite H. reflexivity.
Defined.

(** * Further properties *)

(** ** The reference count *)

Lemma count_T1_cons e evs :
  count_T1 (e :: evs) = (if is_T1 e then 1 else 0) + count_T1 evs.
Proof.
  unfold count_T1. cbn [filter]. destruct (is_T1 e); cbn [length]; lia.
Qed.

Lemma count_T1_nonneg evs : 0 <= count_T1 evs.
Proof. unfold count_T1. lia. Qed.

Lemma count_T1_app evs1 evs2 : count_T1 (evs1 ++ evs2) = count_T1 evs1 + count_T1 evs2.
Proof. unfold count_T1. rewrite filter_app, length_app. lia. Qed.

Lemma requests_count_app b evs1 evs2 :
  requests_count b (evs1 ++ evs2) = requests_count b evs1 + requests_count b evs2.
Proof. unfold requests_count. rewrite filter_app, length_app. lia. Qed.

(** No handler writes the Timer1 interrupt mask. *)
Lemma count_pulse_TIMSK1 b g : TIMSK1 (count_pulse b g) = TIMSK1 g.
Proof.
  unfold count_pulse. cbn [gpsPPScounter set_gpsPPScounter].
  generalize (Int.wrap_u16 (gpsPPScounter g + 1)). intros c.
  destruct (c =? 1) eqn:E1; destruct (c =? 11) eqn:E2;
    cbn -[Z.eqb]; rewrite ?E1, ?E2; cbn -[Z.eqb]; rewrite ?E1, ?E2;
    destruct b; reflexivity.
Qed.

Lemma step_TIMSK1 b e g : TIMSK1 (step b e g) = TIMSK1 g.
Proof.
  destruct e, b; cbn [step]; try apply timer1_tick_frame; try reflexivity;
    destruct (trigger_enabled _ g); try reflexivity;
    unfold PPSinterruptISR, PCINT1_vect;
    cbn [is_PPS_rising_edge set_is_PPS_rising_edge];
    try destruct (negb (is_PPS_rising_edge g));
    rewrite ?count_pulse_TIMSK1; reflexivity.
Qed.

Lemma run_TIMSK1 b evs : forall g, TIMSK1 (run b evs g) = TIMSK1 g.
Proof.
  induction evs as [|e evs IH]; intros g; [reflexivity|].
  rewrite run_cons, IH. apply step_TIMSK1.
Qed.

(** A pulse other than the first leaves the counter and the tally alone. *)
Lemma count_pulse_keeps_count b g :
  (Int.wrap_u16 (gpsPPScounter g + 1) =? 1) = false ->
  TCNT1 (count_pulse b g) = TCNT1 g /\
  overflowCounter (count_pulse b g) = overflowCounter g.
Proof.
  unfold count_pulse. cbn [gpsPPScounter set_gpsPPScounter].
  generalize (Int.wrap_u16 (gpsPPScounter g + 1)). intros c E1.
  destruct (c =? 11) eqn:E2;
    cbn -[Z.eqb]; rewrite ?E1, ?E2; cbn -[Z.eqb]; rewrite ?E1, ?E2;
    destruct b; split; reflexivity.
Qed.

Lemma pps_step_keeps_count b t g e :
  window_open b t g -> 1 <= t < window_requests b -> is_T1 e = false ->
  TCNT1 (step b e g) = TCNT1 g /\
  overflowCounter (step b e g) = overflowCounter g.
Proof.
  intros (_ & _ & Ht & Hc) Hr He.
  destruct e; [discriminate| |]; destruct b; cbn [step]; rewrite ?Ht; auto.
  - apply count_pulse_keeps_count. rewrite Hc.
    cbn in Hr. rewrite wrap_u16_small by lia. apply Z.eqb_neq. lia.
  - destruct Hc as [Hc Hrise]. cbn in Hr. unfold PCINT1_vect.
    cbn [is_PPS_rising_edge set_is_PPS_rising_edge].
    destruct (negb (is_PPS_rising_edge g)); [|auto].
    apply (count_pulse_keeps_count PinChange (set_is_PPS_rising_edge true g)).
    cbn [gpsPPScounter set_is_PPS_rising_edge]. rewrite Hc.
    rewrite wrap_u16_small by divlia. apply Z.eqb_neq. divlia.
  - destruct Hc as [Hc Hrise]. cbn in Hr. unfold PCINT1_vect.
    cbn [is_PPS_rising_edge set_is_PPS_rising_edge].
    destruct (negb (is_PPS_rising_edge g)); [|auto].
    apply (count_pulse_keeps_count PinChange (set_is_PPS_rising_edge true g)).
    cbn [gpsPPScounter set_is_PPS_rising_edge]. rewrite Hc.
    rewrite wrap_u16_small by divlia. apply Z.eqb_neq. divlia.
Qed.

(** One clock edge on a counting timer with the overflow interrupt on. *)
Lemma timer1_tick_count g :
  counting g = true -> Z.testbit (TIMSK1 g) Bits.TOIE1 = true ->
  0 <= TCNT1 g < 65536 -> 0 <= overflowCounter g ->
  reference_count g + 1 < 4294967296 ->
  let s := timer1_tick g in
  0 <= TCNT1 s < 65536 /\ 0 <= overflowCounter s /\
  reference_count s = reference_count g + 1.
Proof.
  intros Hc Hm Ht Ho Hb. unfold timer1_tick, reference_count in *. rewrite Hc.
  destruct (Z.eqb_spec (TCNT1 g) 65535) as [E|E].
  - cbn [TIMSK1 set_TCNT1]. rewrite Hm. unfold TIMER1_OVF_vect.
    cbn [TCNT1 overflowCounter set_overflowCounter set_TCNT1].
    rewrite wrap_u16_small by lia. lia.
  - cbn [TCNT1 overflowCounter set_TCNT1]. lia.
Qed.

Lemma open_counting b t g : window_open b t g -> counting g = true.
Proof. intros (_ & H & _). unfold counting. rewrite H. reflexivity. Qed.

(** In an open window past its first pulse the count follows the clock
    edges. *)
Lemma open_run_count b evs : forall t g,
  window_open b t g -> 1 <= t ->
  t + requests_count b evs < window_requests b ->
  Z.testbit (TIMSK1 g) Bits.TOIE1 = true ->
  0 <= TCNT1 g < 65536 -> 0 <= overflowCounter g ->
  reference_count g + count_T1 evs < 4294967296 ->
  let s := run b evs g in
  window_open b (t + requests_count b evs) s /\
  0 <= TCNT1 s < 65536 /\ 0 <= overflowCounter s /\
  reference_count s = reference_count g + count_T1 evs.
Proof.
  induction evs as [|e evs IH]; intros t g Ho Ht Hr Hm Hc Hv Hb; cbv zeta.
  - cbn. rewrite Z.add_0_r. unfold count_T1. cbn. rewrite Z.add_0_r. auto.
  - rewrite run_cons. rewrite requests_count_cons in Hr |- *.
    rewrite count_T1_cons in Hb |- *.
    pose proof (requests_count_nonneg b evs) as Rn.
    pose proof (count_T1_nonneg evs) as Cn.
    assert (Hreq : 0 <= (if requests b e then 1 else 0) <= 1)
      by (destruct (requests b e); lia).
    assert (Ho' : window_open b (t + (if requests b e then 1 else 0)) (step b e g)).
    { destruct (step_inv b t g e) as (_ & [(_ & H) | (Hge & _)]).
      - split; [lia | left; split; [lia | assumption]].
      - exact H.
      - lia. }
    assert (Hstep : 0 <= TCNT1 (step b e g) < 65536 /\
                    0 <= overflowCounter (step b e g) /\
                    reference_count (step b e g)
                    = reference_count g + (if is_T1 e then 1 else 0)).
    { destruct (is_T1 e) eqn:T.
      - destruct e; try discriminate.
        assert (step b T1_rising g = timer1_tick g) as -> by (destruct b; reflexivity).
        apply timer1_tick_count; auto; [eapply open_counting; eassumption | lia].
      - destruct (pps_step_keeps_count b t g e Ho ltac:(lia) T) as [A B].
        unfold reference_count. rewrite A, B. lia. }
    destruct Hstep as (S1 & S2 & S3).
    specialize (IH (t + (if requests b e then 1 else 0)) (step b e g) Ho'
                   ltac:(lia) ltac:(lia)).
    rewrite step_TIMSK1 in IH. specialize (IH Hm S1 S2 ltac:(lia)).
    cbv zeta in IH. destruct IH as (I1 & I2 & I3 & I4).
    rewrite Z.add_assoc.
    split; [exact I1|]. split; [exact I2|]. split; [exact I3|]. lia.
Qed.

Lemma qualifying_zero b evs : qualifying_edges b evs = 0 -> requests_count b evs = 0.
Proof.
  pose proof (requests_count_nonneg b evs).
  destruct b; cbn [qualifying_edges]; intros; divlia.
Qed.

Lemma arm_TIMSK1 b g : Z.testbit (TIMSK1 (arm b g)) Bits.TOIE1 = true.
Proof. destruct b; reflexivity. Qed.

(** The state right after the first qualifying edge of an armed window. *)
Lemma armed_first_pulse b g pre e :
  qualifying_edges b pre = 0 -> requests b e = true ->
  let s := run b (pre ++ [e]) (arm b g) in
  window_open b 1 s /\ TCNT1 s = 0 /\ overflowCounter s = 0 /\
  Z.testbit (TIMSK1 s) Bits.TOIE1 = true.
Proof.
  intros Hq He. cbv zeta. apply qualifying_zero in Hq.
  rewrite run_app. cbn [run fold_left].
  change (fold_left (fun s e0 => step b e0 s) pre (arm b g)) with (run b pre (arm b g)).
  pose proof (armed_run_inv b pre g) as Inv. rewrite Hq in Inv.
  set (s0 := run b pre (arm b g)) in *.
  assert (Ho : window_open b 0 s0).
  { destruct Inv as (_ & [(_ & H) | (Hge & _)]); [exact H|].
    destruct b; cbn in Hge; lia. }
  split; [|split; [|split]].
  - pose proof (step_inv b 0 s0 e Inv) as (_ & [(_ & H) | (Hge & _)]);
      rewrite He in *; [exact H | destruct b; cbn in Hge; lia].
  - assert (Ht : trigger_enabled b s0 = true) by apply Ho.
    destruct b.
    + destruct e; try discriminate. cbn [step]. rewrite Ht.
      destruct Ho as (Hp & Hb & _ & Hc).
      pose proof (count_pulse_spec ExternalInterrupt _ 0 Hc ltac:(lia) Hp Hb Ht) as S.
      cbv zeta in S. apply S. reflexivity.
    + pose proof (PCINT1_vect_open 0 _ Ho ltac:(lia)) as S. cbv zeta in S.
      destruct e; try discriminate; cbn [step]; rewrite Ht; apply S; reflexivity.
  - assert (Ht : trigger_enabled b s0 = true) by apply Ho.
    destruct b.
    + destruct e; try discriminate. cbn [step]. rewrite Ht.
      destruct Ho as (Hp & Hb & _ & Hc).
      pose proof (count_pulse_spec ExternalInterrupt _ 0 Hc ltac:(lia) Hp Hb Ht) as S.
      cbv zeta in S. apply S. reflexivity.
    + pose proof (PCINT1_vect_open 0 _ Ho ltac:(lia)) as S. cbv zeta in S.
      destruct e; try discriminate; cbn [step]; rewrite Ht; apply S; reflexivity.
  - rewrite step_TIMSK1. unfold s0. rewrite run_TIMSK1. apply arm_TIMSK1.
Qed.

(** The count of an armed window while it is open, from its first pulse. *)
Lemma armed_open_count b g pre e mid :
  qualifying_edges b pre = 0 -> requests b e = true ->
  requests_count b (e :: mid) < window_requests b ->
  count_T1 mid < 4294967296 ->
  let s := run b (pre ++ e :: mid) (arm b g) in
  window_open b (requests_count b (e :: mid)) s /\
  0 <= TCNT1 s < 65536 /\ 0 <= overflowCounter s /\
  reference_count s = count_T1 mid.
Proof.
  intros Hq He Hr Hb. cbv zeta.
  pose proof (armed_first_pulse b g pre e Hq He) as F. cbv zeta in F.
  destruct F as (F1 & F2 & F3 & F4).
  change (pre ++ e :: mid) with (pre ++ [e] ++ mid).
  rewrite app_assoc, run_app.
  rewrite requests_count_cons, He in Hr |- *.
  pose proof (open_run_count b mid 1 _ F1 ltac:(lia) Hr F4) as C.
  unfold reference_count in C |- *. rewrite F2, F3 in C.
  apply C; lia.
Qed.

(** The count of an armed window once its last pulse has closed it. *)
Lemma armed_closed_count b g pre e mid e' post :
  qualifying_edges b pre = 0 -> requests b e = true ->
  requests_count b (e :: mid) = window_requests b - 1 ->
  requests b e' = true ->
  count_T1 mid < 4294967296 ->
  let s := run b (pre ++ e :: mid ++ e' :: post) (arm b g) in
  window_closed b s /\
  0 <= TCNT1 s < 65536 /\ 0 <= overflowCounter s /\
  reference_count s = count_T1 mid.
Proof.
  intros Hq He Hr He' Hb. cbv zeta.
  pose proof (armed_open_count b g pre e mid Hq He ltac:(lia) Hb) as O.
  cbv zeta in O. destruct O as (O1 & O2 & O3 & O4).
  replace (pre ++ e :: mid ++ e' :: post)
    with ((pre ++ e :: mid) ++ e' :: post)
    by (rewrite <- app_assoc; reflexivity).
  rewrite run_app, run_cons.
  set (s := run b (pre ++ e :: mid) (arm b g)) in *.
  rewrite Hr in O1.
  assert (Hlim : 1 <= window_requests b - 1 < window_requests b)
    by (destruct b; cbn; lia).
  assert (T : is_T1 e' = false) by (destruct e', b; try discriminate; reflexivity).
  destruct (pps_step_keeps_count b _ s e' O1 Hlim T) as [K1 K2].
  assert (Hc : window_closed b (step b e' s)).
  { pose proof (step_inv b (window_requests b - 1) s e') as S.
    rewrite He' in S.
    destruct S as (_ & [(Hlt & _) | (_ & H)]); [| lia | exact H].
    split; [lia | left; split; [lia | exact O1]]. }
  rewrite run_closed by exact Hc.
  unfold reference_count in *. rewrite K1, K2. auto.
Qed.

(** X1: from the first qualifying edge of an armed window, and as long as
    the window is open, [TCNT1 + 65536 * overflowCounter] is the number of
    calibration clock edges seen since that edge (below 2^32), in both
    builds. *)
Theorem reference_count_follows_clock b g pre e mid :
  qualifying_edges b pre = 0 -> requests b e = true ->
  requests_count b (e :: mid) < window_requests b ->
  count_T1 mid < 4294967296 ->
  let s := run b (pre ++ e :: mid) (arm b g) in
  reference_count s = count_T1 mid /\
  TCNT1 s = count_T1 mid mod 65536 /\
  overflowCounter s = count_T1 mid / 65536.
Proof.
  intros Hq He Hr Hb. cbv zeta.
  pose proof (armed_open_count b g pre e mid Hq He Hr Hb) as O.
  cbv zeta in O. destruct O as (_ & O2 & O3 & O4).
  unfold reference_count in *. repeat split; [exact O4 | divlia | divlia].
Qed.

Lemma reference_count_follows_clock_witness :
  TCNT1 (run PinChange
           ([T1_rising] ++ PPS_rising :: repeat T1_rising (Z.to_nat 70000))
           (arm PinChange sampler0)) = 4464 /\
  overflowCounter (run PinChange
           ([T1_rising] ++ PPS_rising :: repeat T1_rising (Z.to_nat 70000))
           (arm PinChange sampler0)) = 1.
Proof.
  pose proof (reference_count_follows_clock PinChange sampler0 [T1_rising]
                PPS_rising (repeat T1_rising (Z.to_nat 70000))) as H.
  cbv zeta in H.
  destruct H as (_ & H1 & H2);
    [reflexivity | reflexivity | vm_compute; reflexivity
     | vm_compute; reflexivity |].
  split; [rewrite H1 | rewrite H2]; vm_compute; reflexivity.
Defined.

(** X2: when the eleventh qualifying edge has closed the window, and
    whatever follows, [TCNT1 + 65536 * overflowCounter] is the number of
    calibration clock edges between the first and the eleventh qualifying
    edge; edges before the first pulse and after the last are not counted. *)
Theorem window_counts_edges_between_pulses b g pre e mid e' post :
  qualifying_edges b pre = 0 -> requests b e = true ->
  requests_count b (e :: mid) = window_requests b - 1 ->
  requests b e' = true ->
  count_T1 mid < 4294967296 ->
  let s := run b (pre ++ e :: mid ++ e' :: post) (arm b g) in
  g_calibration_proceed s = true /\
  reference_count s = count_T1 mid /\
  TCNT1 s = count_T1 mid mod 65536 /\
  overflowCounter s = count_T1 mid / 65536.
Proof.
  intros Hq He Hr He' Hb. cbv zeta.
  pose proof (armed_closed_count b g pre e mid e' post Hq He Hr He' Hb) as C.
  cbv zeta in C. destruct C as ((C1 & _) & C2 & C3 & C4).
  unfold reference_count in *. repeat split; [exact C1 | exact C4 | divlia | divlia].
Qed.

Lemma window_counts_edges_between_pulses_witness :
  reference_count
    (run ExternalInterrupt
       ([T1_rising] ++ PPS_rising
        :: (repeat T1_rising 5 ++ repeat PPS_rising 9) ++ PPS_rising :: [T1_rising])
       (arm ExternalInterrupt sampler0)) = 5.
Proof.
  pose proof (window_counts_edges_between_pulses ExternalInterrupt sampler0
                [T1_rising] PPS_rising (repeat T1_rising 5 ++ repeat PPS_rising 9)
                PPS_rising [T1_rising]) as H.
  cbv zeta in H.
  destruct H as (_ & H & _);
    [reflexivity | reflexivity | reflexivity | reflexivity | reflexivity |].
  rewrite H. reflexivity.
Defined.

(** ** The wait *)

Lemma wait_for_proceed_prefix b w : forall m m',
  wait_for_proceed b w m = Some m' ->
  exists seen rest, w = seen ++ rest /\ hw m' = run b seen (hw m).
Proof.
  induction w as [|e w IH]; intros m m' H; cbn [wait_for_proceed] in H;
    destruct (g_calibration_proceed (hw m)) eqn:P; try discriminate.
  - inversion H; subst. exists [], []. auto.
  - inversion H; subst. exists [], (e :: w). auto.
  - apply IH in H. destruct H as (seen & rest & -> & H).
    exists (e :: seen), rest. split; [reflexivity | exact H].
Qed.

(** After the wait on an armed window the sampler is closed, and it is the
    state all the events of the window lead to. *)
Lemma wait_armed_run b w m m1 :
  wait_for_proceed b w (arm_window b m) = Some m1 ->
  window_closed b (hw m1) /\ hw m1 = run b w (arm b (hw m)).
Proof.
  intros W.
  pose proof (wait_for_proceed_frame b w _ _ W) as (P & _).
  apply wait_for_proceed_prefix in W. destruct W as (seen & rest & -> & S).
  change (hw (arm_window b m)) with (arm b (hw m)) in S.
  assert (Hc : window_closed b (hw m1)).
  { rewrite S in P |- *.
    pose proof (armed_run_inv b seen (hw m)) as (_ & [(_ & Ho) | (_ & Hc)]);
      [destruct Ho as (Hf & _); congruence | exact Hc]. }
  split; [exact Hc|].
  rewrite run_app, <- S. symmetry. apply run_closed, Hc.
Qed.

Lemma loop_body_hw b cfg step i w m m' :
  loop_body b cfg step i w m = Some m' ->
  window_closed b (hw m') /\ hw m' = run b w (arm b (hw m)) /\ SREG_I m' = true.
Proof.
  unfold loop_body. intros H.
  destruct (wait_for_proceed b w (arm_window b m)) as [m1|] eqn:W; [|discriminate].
  inversion H; subst m'; clear H.
  apply wait_armed_run in W. destruct W as [Hc Hr].
  pose proof (sample_and_correct_frame cfg step i m1) as F. cbv zeta in F.
  destruct F as (F1 & _). rewrite F1. split; [exact Hc|]. split; [exact Hr|].
  unfold sample_and_correct. cbn -[Z.eqb huff_n_puff].
  destruct (i =? 0); cbn -[huff_n_puff]; [reflexivity|].
  unfold huff_n_puff.
  cbn -[Z.eqb Z.ltb measured_frequency Int.to_int16 Int.to_int32].
  destruct (_ =? 0); cbn -[Z.eqb Z.ltb measured_frequency Int.to_int16 Int.to_int32];
    [reflexivity|].
  destruct (_ <? _); cbn -[Z.eqb Z.ltb measured_frequency Int.to_int16 Int.to_int32];
    destruct (_ <? _); reflexivity.
Qed.

(** X3: a pass whose window holds [n] calibration clock edges between its
    first and its eleventh qualifying edge, with [n] below 2^32 and
    [n mod 65536] below 32768, returns and stores a measured frequency of
    [10 * n], whatever the state of the sampler before the pass. *)
Theorem pass_measures_ten_times_edge_count
    b cfg step i m pre e mid e' post :
  qualifying_edges b pre = 0 -> requests b e = true ->
  requests_count b (e :: mid) = window_requests b - 1 ->
  requests b e' = true ->
  count_T1 mid < 4294967296 ->
  count_T1 mid mod 65536 < 32768 ->
  exists m',
    loop_body b cfg step i (pre ++ e :: mid ++ e' :: post) m = Some m' /\
    measured_rx_freq m' = 10 * count_T1 mid.
Proof.
  intros Hq He Hr He' Hb Hlow.
  pose proof (armed_closed_count b (hw m) pre e mid e' post Hq He Hr He' Hb) as C.
  cbv zeta in C. destruct C as ((C1 & _) & C2 & C3 & C4).
  set (w := pre ++ e :: mid ++ e' :: post) in *.
  destruct (wait_for_proceed_completes b w (arm_window b m)) as [m1 W];
    [exact C1|].
  pose proof (wait_armed_run b w m m1 W) as [_ Hrun].
  exists (sample_and_correct cfg step i m1). split.
  - unfold loop_body. rewrite W. reflexivity.
  - pose proof (sample_and_correct_frame cfg step i m1) as F. cbv zeta in F.
    destruct F as (_ & _ & F3 & _). rewrite F3. unfold measured_of.
    rewrite Hrun. unfold reference_count in C4.
    pose proof (count_T1_nonneg mid).
    rewrite measured_frequency_exact_low by divlia. lia.
Qed.

Lemma pass_measures_ten_times_edge_count_witness :
  exists m',
    loop_body PinChange cfg0 50 0
      ([T1_rising] ++ PPS_rising
       :: (repeat T1_rising 7 ++ repeat PPS_falling 19) ++ PPS_falling :: [])
      (machine0 0 320000000) = Some m' /\
    measured_rx_freq m' = 70.
Proof.
  apply (pass_measures_ten_times_edge_count PinChange cfg0 50 0
           (machine0 0 320000000) [T1_rising] PPS_rising
           (repeat T1_rising 7 ++ repeat PPS_falling 19) PPS_falling []);
    reflexivity.
Defined.

Lemma loop_body_needs_eleven b cfg step i w m m' :
  loop_body b cfg step i w m = Some m' -> 11 <= qualifying_edges b w.
Proof.
  intros H. apply loop_body_hw in H. destruct H as ((P & _) & R & _).
  rewrite R in P.
  destruct (Z.lt_ge_cases (qualifying_edges b w) 11) as [L|G]; [|exact G].
  apply qualifying_lt_11 in L.
  pose proof (armed_run_inv b w (hw m)) as (_ & [(_ & Ho) | (Hge & _)]);
    [destruct Ho as (Hf & _); congruence | lia].
Qed.

(** X4: a pass returns exactly when its window delivers eleven qualifying
    edges; with fewer the main loop never leaves the wait. *)
Theorem pass_returns_iff_eleven_edges b cfg step i w m :
  (exists m', loop_body b cfg step i w m = Some m') <->
  11 <= qualifying_edges b w.
Proof.
  split.
  - intros [m' H]. eapply loop_body_needs_eleven, H.
  - apply loop_body_completes.
Qed.

Lemma calibration_loop_windows b cfg step : forall n i ws m m',
  calibration_loop b cfg step n i ws m = Some m' ->
  forall k, (k < n)%nat -> 11 <= qualifying_edges b (nth k ws []).
Proof.
  induction n as [|n IH]; intros i ws m m' H k Hk; [lia|].
  cbn [calibration_loop] in H.
  destruct (loop_body b cfg step i (hd [] ws) m) as [m1|] eqn:L; [|discriminate].
  destruct k as [|k].
  - apply loop_body_needs_eleven in L. destruct ws; exact L.
  - specialize (IH _ _ _ _ H k ltac:(lia)). destruct ws; [destruct k|]; exact IH.
Qed.

(** X5: [do_calibration] returns exactly when each of its 24 windows
    delivers eleven qualifying edges; one short window blocks the cycle for
    good. *)
Theorem do_calibration_returns_iff_all_windows_close b cfg step ws m :
  (exists m', do_calibration b cfg step ws m = Some m') <->
  (forall k, (k < 24)%nat -> 11 <= qualifying_edges b (nth k ws [])).
Proof.
  split.
  - intros [m' H]. unfold do_calibration in H.
    destruct (calibration_loop b cfg step 24 0 ws m) as [m1|] eqn:L; [|discriminate].
    eapply calibration_loop_windows, L.
  - apply do_calibration_completes.
Qed.

(** ** Calls of a pass *)

Lemma sample_and_correct_calls cfg step i m :
  i <> 0 ->
  calls (sample_and_correct cfg step i m) =
  calls m ++ pass_calls cfg i m (sample_and_correct cfg step i m).
Proof.
  intros Hi. apply Z.eqb_neq in Hi.
  unfold pass_calls, sample_and_correct, huff_n_puff.
  cbn -[Z.eqb Z.ltb measured_frequency Int.to_int16 Int.to_int32].
  rewrite Hi. cbn -[Z.eqb Z.ltb measured_frequency Int.to_int16 Int.to_int32].
  destruct (measured_frequency _ _ =? 0) eqn:E0;
    cbn -[Z.eqb Z.ltb measured_frequency Int.to_int16 Int.to_int32].
  - rewrite E0. rewrite <- !app_assoc. reflexivity.
  - destruct (_ <? _);
      cbn -[Z.eqb Z.ltb measured_frequency Int.to_int16 Int.to_int32];
      destruct (_ <? _);
      cbn -[Z.eqb Z.ltb measured_frequency Int.to_int16 Int.to_int32];
      rewrite E0; rewrite <- !app_assoc; reflexivity.
Qed.

Lemma loop_body_calls b cfg step i w m m' :
  loop_body b cfg step i w m = Some m' -> i <> 0 ->
  calls m' = calls m ++ pass_calls cfg i m m'.
Proof.
  intros H Hi. apply loop_body_inv in H.
  destruct H as (m1 & -> & _ & _ & C & T & K & _).
  rewrite sample_and_correct_calls by assumption.
  unfold pass_calls. rewrite K, C, T. reflexivity.
Qed.

(** X6: a pass with index other than 0 makes, in this order, the calls
    [swerr(8, 0)] (only when the measurement is zero),
    [log_debug_Timer1_info] with the index and the snapshot,
    [log_calibration] with the measurement and the correction factor before
    and after the pass, [si5351bx_set_correction] with the new factor,
    [si5351bx_setfreq] of the calibration clock on the target, and
    [delay(10)]; it makes no other call. *)
Theorem pass_calls_in_order b cfg step i w m m' :
  loop_body b cfg step i w m = Some m' -> i <> 0 ->
  calls m' = calls m ++ pass_calls cfg i m m' /\
  old_cal_factor m' = cal_factor m.
Proof.
  intros H Hi. split; [eapply loop_body_calls; eassumption|].
  apply loop_body_inv in H. destruct H as (m1 & -> & _ & _ & C & _).
  rewrite <- C. unfold sample_and_correct, huff_n_puff.
  cbn -[Z.eqb Z.ltb measured_frequency Int.to_int16 Int.to_int32].
  destruct (i =? 0); cbn -[Z.eqb Z.ltb measured_frequency Int.to_int16 Int.to_int32];
    [reflexivity|].
  destruct (_ =? 0); cbn -[Z.eqb Z.ltb measured_frequency Int.to_int16 Int.to_int32];
    [reflexivity|].
  destruct (_ <? _); cbn -[Z.eqb Z.ltb measured_frequency Int.to_int16 Int.to_int32];
    destruct (_ <? _); reflexivity.
Qed.

Lemma pass_calls_in_order_witness :
  exists m',
    loop_body ExternalInterrupt cfg0 50 1 (window 3) (machine0 0 320000000) = Some m' /\
    calls m' =
    [ log_debug_Timer1_info 1 0 3; log_calibration 30 0 (-50);
      si5351bx_set_correction (-50); si5351bx_setfreq 2 320000000; delay 10 ].
Proof.
  eexists. split; [vm_compute; reflexivity|].
  eapply (pass_calls_in_order ExternalInterrupt cfg0 50 1 (window 3)
            (machine0 0 320000000)).
  - vm_compute. reflexivity.
  - discriminate.
Defined.

(** X7: a zero measurement on a pass with index other than 0 is reported
    with [swerr(8, 0)] and leaves the correction factor as it was; the pass
    still logs, hands the unchanged factor to the synthesizer driver and
    returns, so the loop goes on to the next window. *)
Theorem zero_measurement_reported_and_skipped b cfg step i w m m' :
  loop_body b cfg step i w m = Some m' -> i <> 0 ->
  measured_rx_freq m' = 0 ->
  cal_factor m' = cal_factor m /\
  calls m' =
  calls m ++
  [ swerr 8 0;
    log_debug_Timer1_info i (overflowCounter (hw m')) (Int.to_int16 (TCNT1 (hw m')));
    log_calibration 0 (cal_factor m) (cal_factor m);
    si5351bx_set_correction (cal_factor m);
    si5351bx_setfreq (SI5351A_CAL_CLK_NUM cfg) (target_freq m);
    delay 10 ].
Proof.
  intros H Hi Hz.
  pose proof (loop_body_calls _ _ _ _ _ _ _ H Hi) as K.
  apply loop_body_cal in H. destruct H as [_ C].
  apply Z.eqb_neq in Hi. rewrite Hi, Hz in C. cbn in C.
  split; [exact C|]. rewrite K. unfold pass_calls. rewrite Hz, C. reflexivity.
Qed.

Lemma zero_measurement_reported_and_skipped_witness :
  exists m',
    loop_body PinChange cfg0 50 4 (window 0) (machine0 (-150) 320000000) = Some m' /\
    cal_factor m' = -150.
Proof.
  eexists. split; [vm_compute; reflexivity|].
  eapply (zero_measurement_reported_and_skipped PinChange cfg0 50 4 (window 0)
            (machine0 (-150) 320000000)).
  - vm_compute. reflexivity.
  - discriminate.
  - vm_compute. reflexivity.
Defined.

(** ** The whole cycle *)

Lemma calibration_loop_exit b cfg step : forall n i ws m m',
  calibration_loop b cfg step (S n) i ws m = Some m' ->
  window_closed b (hw m') /\ SREG_I m' = true /\ target_freq m' = target_freq m.
Proof.
  induction n as [|n IH]; intros i ws m m' H;
    cbn [calibration_loop] in H;
    destruct (loop_body b cfg step i (hd [] ws) m) as [m1|] eqn:L;
    try discriminate.
  - inversion H; subst m'.
    pose proof (loop_body_hw _ _ _ _ _ _ _ L) as (A & _ & B).
    apply loop_body_cal in L. destruct L as [T _]. auto.
  - change (match loop_body b cfg step (i + 1) (hd [] (tl ws)) m1 with
            | Some m2 => calibration_loop b cfg step n (i + 1 + 1) (tl (tl ws)) m2
            | None => None
            end)
      with (calibration_loop b cfg step (S n) (i + 1) (tl ws) m1) in H.
    apply IH in H. destruct H as (A & B & T).
    apply loop_body_cal in L. destruct L as [T1 _]. rewrite T, T1. auto.
Qed.

(** X8: when [do_calibration] returns, the Timer1 clock is off, the PPS
    interrupt of the build is masked, the completion flag is set, interrupts
    are enabled, and [target_freq] is what it was at entry. *)
Theorem do_calibration_leaves_sampler_closed b cfg step ws m m' :
  do_calibration b cfg step ws m = Some m' ->
  TCCR1B (hw m') = 0 /\ trigger_enabled b (hw m') = false /\
  g_calibration_proceed (hw m') = true /\
  SREG_I m' = true /\ target_freq m' = target_freq m.
Proof.
  unfold do_calibration. intros H.
  destruct (calibration_loop b cfg step 24 0 ws m) as [m1|] eqn:L; [|discriminate].
  inversion H; subst m'; clear H.
  apply (calibration_loop_exit b cfg step 23) in L.
  destruct L as ((P & B & T & _) & I & F). cbn. auto.
Qed.

Lemma do_calibration_leaves_sampler_closed_witness :
  exists m',
    do_calibration PinChange cfg0 50 (repeat (window 3) 24)
                   (machine0 0 320000000) = Some m' /\
    TCCR1B (hw m') = 0.
Proof.
  eexists. split; [vm_compute; reflexivity|].
  eapply (do_calibration_leaves_sampler_closed PinChange cfg0 50
            (repeat (window 3) 24) (machine0 0 320000000)).
  vm_compute. reflexivity.
Defined.

Lemma last_correction_fold cs : forall a a',
  let f := fun (acc : option Z) (c : call) =>
             match c with
             | si5351bx_set_correction v => Some v
             | _ => acc
             end in
  fold_left f cs a = fold_left f cs a' \/
  (fold_left f cs a = a /\ fold_left f cs a' = a').
Proof.
  induction cs as [|c cs IH]; intros a a'; cbv zeta; cbn [fold_left].
  - right. auto.
  - destruct c; try apply IH. left. reflexivity.
Qed.

Lemma last_correction_app cs1 cs2 v :
  last_correction cs2 = Some v -> last_correction (cs1 ++ cs2) = Some v.
Proof.
  unfold last_correction. rewrite fold_left_app. intros H.
  match goal with
  | |- fold_left ?f cs2 ?a = _ =>
      destruct (last_correction_fold cs2 a None) as [E | [_ E]]
  end.
  - cbv zeta in E. rewrite E. exact H.
  - cbv zeta in E. rewrite E in H. discriminate.
Qed.

Lemma last_correction_pass_calls cfg i m m' :
  last_correction (pass_calls cfg i m m') = Some (cal_factor m').
Proof.
  unfold pass_calls. destruct (measured_rx_freq m' =? 0); reflexivity.
Qed.

Lemma calibration_loop_last_correction b cfg step : forall n i ws m m',
  calibration_loop b cfg step (S n) i ws m = Some m' -> 1 <= i ->
  last_correction (calls m') = Some (cal_factor m').
Proof.
  induction n as [|n IH]; intros i ws m m' H Hi;
    cbn [calibration_loop] in H;
    destruct (loop_body b cfg step i (hd [] ws) m) as [m1|] eqn:L;
    try discriminate.
  - inversion H; subst m'.
    rewrite (loop_body_calls _ _ _ _ _ _ _ L) by lia.
    apply last_correction_app, last_correction_pass_calls.
  - change (match loop_body b cfg step (i + 1) (hd [] (tl ws)) m1 with
            | Some m2 => calibration_loop b cfg step n (i + 1 + 1) (tl (tl ws)) m2
            | None => None
            end)
      with (calibration_loop b cfg step (S n) (i + 1) (tl ws) m1) in H.
    eapply IH; [exact H | lia].
Qed.

(** X9: when [do_calibration] returns, the correction factor it leaves in
    [cal_factor] is the one last handed to [si5351bx_set_correction], and
    the last two calls switch the calibration clock off and set the park
    clock to [PARK_FREQ_HZ * 100]. *)
Theorem committed_correction_is_last_pushed b cfg step ws m m' :
  do_calibration b cfg step ws m = Some m' ->
  last_correction (calls m') = Some (cal_factor m') /\
  exists cs,
    calls m' =
    cs ++ [ si5351bx_enable_clk (SI5351A_CAL_CLK_NUM cfg) (SI5351_CLK_OFF cfg);
            si5351bx_setfreq (SI5351A_PARK_CLK_NUM cfg)
                             (Int.wrap_u64 (PARK_FREQ_HZ cfg * 100)) ].
Proof.
  unfold do_calibration. intros H.
  destruct (calibration_loop b cfg step 24 0 ws m) as [mf|] eqn:L; [|discriminate].
  inversion H; subst m'; clear H.
  cbn [calibration_loop] in L.
  destruct (loop_body b cfg step 0 (hd [] ws) m) as [m1|] eqn:L0; [|discriminate].
  change (match loop_body b cfg step (0 + 1) (hd [] (tl ws)) m1 with
          | Some m2 => _
          | None => None
          end)
    with (calibration_loop b cfg step 23 (0 + 1) (tl ws) m1) in L.
  apply calibration_loop_last_correction in L; [|lia].
  split.
  - unfold park. cbn [calls emit cal_factor].
    unfold last_correction in *. rewrite <- app_assoc, fold_left_app.
    cbn [fold_left app]. exact L.
  - exists (calls mf). unfold park. cbn [calls emit].
    rewrite <- app_assoc. reflexivity.
Qed.

Lemma committed_correction_is_last_pushed_witness :
  exists m',
    do_calibration ExternalInterrupt cfg0 50 windows_with_signal_loss
                   (machine0 0 320000000) = Some m' /\
    last_correction (calls m') = Some (-1100).
Proof.
  eexists. split; [vm_compute; reflexivity|].
  eapply (committed_correction_is_last_pushed ExternalInterrupt cfg0 50
            windows_with_signal_loss (machine0 0 320000000)).
  vm_compute. reflexivity.
Defined.

(** X10: in an armed window [gpsPPScounter] stays between 0 and 11 whatever
    the events, and the completion flag is set exactly when it stands
    at 11. *)
Theorem pulse_counter_bounded (b : build) (g : sampler) (evs : list event) :
  let s := run b evs (arm b g) in
  0 <= gpsPPScounter s <= 11 /\
  (g_calibration_proceed s = true <-> gpsPPScounter s = 11).
Proof.
  cbv zeta.
  pose proof (armed_run_inv b evs g) as (H0 & [(Hlt & Ho) | (_ & Hc)]).
  - destruct Ho as (Hp & _ & _ & Hc). rewrite Hp.
    destruct b; cbn [window_requests] in Hlt.
    + rewrite Hc. split; [lia|]. split; [discriminate | lia].
    + destruct Hc as [Hc _]. rewrite Hc.
      split; [divlia|]. split; [discriminate | divlia].
  - destruct Hc as (Hp & _ & _ & Hc). rewrite Hp, Hc.
    split; [lia | tauto].
Qed.

(** ** The correction factor *)

Lemma to_int32_round_trip c s :
  Int.int32_range c ->
  Int.to_int32 (Int.to_int32 (c + s) - s) = c /\
  Int.to_int32 (Int.to_int32 (c - s) + s) = c.
Proof. unfold Int.int32_range, Int.to_int32. intros H. split; divlia. Qed.

(** X11: two passes with index other than 0, one measuring above the
    target and one below it (in either order, both nonzero), bring a
    correction factor within [int32_t] back to exactly where it was, also
    when the step makes the 32-bit arithmetic wrap. *)
Theorem opposite_steps_cancel b cfg step i j w1 w2 m m1 m2 :
  Int.int32_range (cal_factor m) ->
  loop_body b cfg step i w1 m = Some m1 ->
  loop_body b cfg step j w2 m1 = Some m2 ->
  i <> 0 -> j <> 0 ->
  measured_rx_freq m1 <> 0 -> measured_rx_freq m2 <> 0 ->
  (target_freq m < measured_rx_freq m1 /\ measured_rx_freq m2 < target_freq m) \/
  (measured_rx_freq m1 < target_freq m /\ target_freq m < measured_rx_freq m2) ->
  cal_factor m2 = cal_factor m.
Proof.
  intros Hr L1 L2 Hi Hj Hm1 Hm2 Hd.
  apply loop_body_cal in L1. destruct L1 as [T1 C1].
  apply loop_body_cal in L2. destruct L2 as [_ C2].
  rewrite T1 in C2.
  apply Z.eqb_neq in Hi, Hj, Hm1, Hm2.
  rewrite Hi, Hm1 in C1. rewrite Hj, Hm2 in C2.
  pose proof (to_int32_round_trip (cal_factor m) step Hr) as [R1 R2].
  destruct Hd as [[A B] | [A B]].
  - destruct (Z.ltb_spec (measured_rx_freq m1) (target_freq m)); [lia|].
    destruct (Z.ltb_spec (target_freq m) (measured_rx_freq m1)); [|lia].
    destruct (Z.ltb_spec (measured_rx_freq m2) (target_freq m)); [|lia].
    rewrite C2, C1. exact R1.
  - destruct (Z.ltb_spec (measured_rx_freq m1) (target_freq m)); [|lia].
    destruct (Z.ltb_spec (measured_rx_freq m2) (target_freq m)); [lia|].
    destruct (Z.ltb_spec (target_freq m) (measured_rx_freq m2)); [|lia].
    rewrite C2, C1. exact R2.
Qed.

Lemma opposite_steps_cancel_witness :
  exists m1 m2,
    loop_body ExternalInterrupt cfg0 4000000000 1 (window 3) (machine0 7 20) = Some m1 /\
    loop_body ExternalInterrupt cfg0 4000000000 2 (window 1) m1 = Some m2 /\
    cal_factor m1 = -294967289 /\
    cal_factor m2 = 7.
Proof.
  eexists. eexists.
  split; [vm_compute; reflexivity|].
  split; [vm_compute; reflexivity|].
  split; [vm_compute; reflexivity|].
  eapply (opposite_steps_cancel ExternalInterrupt cfg0 4000000000 1 2
            (window 3) (window 1) (machine0 7 20)).
  - vm_compute. split; discriminate.
  - vm_compute. reflexivity.
  - vm_compute. reflexivity.
  - discriminate.
  - discriminate.
  - vm_compute. discriminate.
  - vm_compute. discriminate.
  - left. vm_compute. split; reflexivity.
Defined.





(** X13: what a pass stores as measured frequency, from a 16-bit counter
    value [raw] and a 16-bit tally [overflow]: [(raw + 65536 * overflow) * 10]
    when [raw] is below 32768; 655360 less than that when [raw] is 32768 or
    more and the tally is not zero; and [2^64 - (65536 - raw) * 10] when
    [raw] is 32768 or more and the tally is zero. *)
Theorem stored_frequency_by_counter_half cfg step i m :
  0 <= TCNT1 (hw m) < 65536 -> 0 <= overflowCounter (hw m) < 65536 ->
  measured_rx_freq (sample_and_correct cfg step i m) =
  let raw := TCNT1 (hw m) in
  let overflow := overflowCounter (hw m) in
  if raw <? 32768 then (raw + 65536 * overflow) * 10
  else if overflow =? 0 then 18446744073709551616 - (65536 - raw) * 10
       else (raw + 65536 * overflow) * 10 - 655360.
Proof.
  intros Hr Ho.
  pose proof (sample_and_correct_frame cfg step i m) as F. cbv zeta in F.
  destruct F as (_ & _ & F & _). rewrite F. unfold measured_of. cbv zeta.
  destruct (Z.ltb_spec (TCNT1 (hw m)) 32768) as [L|L].
  - apply measured_frequency_exact_low; lia.
  - destruct (Z.eqb_spec (overflowCounter (hw m)) 0) as [E|E].
    + rewrite E, to_int16_large by lia.
      unfold measured_frequency, Int.wrap_u64. divlia.
    + apply measured_frequency_high; lia.
Qed.

Lemma stored_frequency_by_counter_half_witness :
  measured_rx_freq
    (sample_and_correct cfg0 50 1 (closed_machine 18432 488 0 320000000))
  = 320000000.
Proof.
  rewrite (stored_frequency_by_counter_half cfg0 50 1
             (closed_machine 18432 488 0 320000000)).
  - reflexivity.
  - vm_compute. split; [discriminate | reflexivity].
  - vm_compute. split; [discriminate | reflexivity].
Defined.

(** ** Initialisation *)

(** With the PPS interrupt masked, PPS edges do nothing and clock edges
    leave the PPS side alone. *)
Lemma masked_step b e g :
  trigger_enabled b g = false ->
  let s := step b e g in
  trigger_enabled b s = false /\
  gpsPPScounter s = gpsPPScounter g /\
  g_calibration_proceed s = g_calibration_proceed g /\
  is_PPS_rising_edge s = is_PPS_rising_edge g /\
  TCCR1B s = TCCR1B g /\
  (is_T1 e = false -> TCNT1 s = TCNT1 g).
Proof.
  intros T. cbv zeta.
  pose proof (timer1_tick_frame g) as F. cbv zeta in F.
  destruct F as (F1 & F2 & F3 & F4 & F5 & F6 & _).
  destruct e, b; cbn [step is_T1]; rewrite ?T;
    unfold trigger_enabled in *; rewrite ?F1, ?F2, ?F3, ?F4, ?F5, ?F6;
    repeat split; auto; discriminate.
Qed.

Lemma masked_run b evs : forall g,
  trigger_enabled b g = false ->
  let s := run b evs g in
  trigger_enabled b s = false /\
  gpsPPScounter s = gpsPPScounter g /\
  g_calibration_proceed s = g_calibration_proceed g /\
  is_PPS_rising_edge s = is_PPS_rising_edge g /\
  TCCR1B s = TCCR1B g.
Proof.
  induction evs as [|e evs IH]; intros g T; cbv zeta; [cbn; auto|].
  rewrite run_cons.
  pose proof (masked_step b e g T) as S. cbv zeta in S.
  destruct S as (S1 & S2 & S3 & S4 & S5 & _).
  specialize (IH _ S1). cbv zeta in IH.
  destruct IH as (I1 & I2 & I3 & I4 & I5).
  rewrite I2, I3, I4, I5. auto.
Qed.

(** Below the first overflow a counting timer holds the number of clock
    edges, and the tally does not move. *)
Lemma masked_run_count b evs : forall g,
  trigger_enabled b g = false -> counting g = true ->
  0 <= TCNT1 g -> TCNT1 g + count_T1 evs < 65536 ->
  TCNT1 (run b evs g) = TCNT1 g + count_T1 evs /\
  overflowCounter (run b evs g) = overflowCounter g.
Proof.
  induction evs as [|e evs IH]; intros g T C H0 Hb.
  - unfold count_T1. cbn. split; [lia | reflexivity].
  - rewrite run_cons. rewrite count_T1_cons in Hb |- *.
    pose proof (count_T1_nonneg evs) as Cn.
    pose proof (masked_step b e g T) as S. cbv zeta in S.
    destruct S as (S1 & _ & _ & _ & S5 & _).
    assert (C' : counting (step b e g) = true).
    { unfold counting in *. rewrite S5. exact C. }
    assert (St : TCNT1 (step b e g) = TCNT1 g + (if is_T1 e then 1 else 0) /\
                 overflowCounter (step b e g) = overflowCounter g).
    { destruct e, b; cbn [step is_T1]; rewrite ?T, ?Z.add_0_r; auto;
        unfold timer1_tick; rewrite C;
        (destruct (Z.eqb_spec (TCNT1 g) 65535); [cbn [is_T1] in Hb; lia | auto]). }
    destruct St as [St1 St2].
    destruct (IH (step b e g) S1 C') as [I1 I2];
      [destruct (is_T1 e); lia | destruct (is_T1 e); lia |].
    rewrite I1, I2, St1, St2. split; [lia | reflexivity].
Qed.

(** X14: after [setup_calibration], in both builds and whatever
    [attachInterrupt] did, the PPS interrupt is masked: no later PPS or clock
    edge changes [gpsPPScounter], the completion flag or the edge toggle
    until a window is armed. *)
Theorem setup_calibration_masks_pps b attachInterrupt cfg bd evs :
  let g := hw (mcu (setup_calibration b attachInterrupt cfg bd)) in
  trigger_enabled b g = false /\
  trigger_enabled b (run b evs g) = false /\
  gpsPPScounter (run b evs g) = gpsPPScounter g /\
  g_calibration_proceed (run b evs g) = g_calibration_proceed g /\
  is_PPS_rising_edge (run b evs g) = is_PPS_rising_edge g.
Proof.
  cbv zeta.
  assert (T : trigger_enabled b
                (hw (mcu (setup_calibration b attachInterrupt cfg bd))) = false).
  { destruct b; cbn; [reflexivity|].
    destruct (PCIFR_PCIF1 (hw (mcu bd))); reflexivity. }
  split; [exact T|].
  pose proof (masked_run b evs _ T) as M. cbv zeta in M. tauto.
Qed.

(** X15: in the pin change build [setup_calibration] sets the port C enable
    bit of [PCICR] and leaves every other bit of the register as it was. *)
Theorem setup_calibration_keeps_other_ports attachInterrupt cfg bd k :
  Z.testbit (PCICR (setup_calibration PinChange attachInterrupt cfg bd)) k =
  (k =? PCIE1) || Z.testbit (PCICR bd) k.
Proof.
  cbn [setup_calibration timer1_init start_calibration_clock on_mcu set_PCICR
       set_TCCR1A PCICR mcu].
  rewrite Z.lor_spec, orb_comm. f_equal.
  change (Z.shiftl 1 PCIE1) with (2 ^ 1). unfold PCIE1.
  destruct (Z.ltb_spec k 0) as [N|N].
  - rewrite Z.testbit_neg_r by lia. symmetry. apply Z.eqb_neq. lia.
  - rewrite Z.pow2_bits_eqb by lia. apply Z.eqb_sym.
Qed.

(** X16: [reset_for_calibration] on a closed sampler starts Timer1 again
    from zero while the PPS interrupt stays masked and the completion flag
    stays set: the next clock edges (fewer than 65536) are counted in
    [TCNT1], [overflowCounter] is not zeroed, and PPS edges are ignored. *)
Theorem reset_for_calibration_restarts_timer b cfg bd evs :
  window_closed b (hw (mcu bd)) ->
  count_T1 evs < 65536 ->
  let g := run b evs (hw (mcu (reset_for_calibration cfg bd))) in
  TCNT1 g = count_T1 evs /\
  overflowCounter g = overflowCounter (hw (mcu bd)) /\
  g_calibration_proceed g = true /\
  gpsPPScounter g = 11 /\
  trigger_enabled b g = false.
Proof.
  intros (Hp & Hb & Ht & Hc) Hn. cbv zeta.
  set (g0 := hw (mcu (reset_for_calibration cfg bd))).
  assert (T : trigger_enabled b g0 = false) by (destruct b; exact Ht).
  assert (C : counting g0 = true) by reflexivity.
  assert (Z0 : TCNT1 g0 = 0) by reflexivity.
  pose proof (masked_run b evs g0 T) as M. cbv zeta in M.
  destruct M as (M1 & M2 & M3 & _).
  pose proof (masked_run_count b evs g0 T C ltac:(lia) ltac:(lia)) as [K1 K2].
  rewrite K1, K2, Z0, M2, M3. repeat split; auto.
Qed.

Lemma reset_for_calibration_restarts_timer_witness :
  TCNT1 (run ExternalInterrupt [T1_rising; PPS_rising; T1_rising]
           (hw (mcu (reset_for_calibration cfg0
                       (mkBoard (closed_machine 40000 100 0 320000000) 0 0))))) = 2.
Proof.
  pose proof (reset_for_calibration_restarts_timer ExternalInterrupt cfg0
                (mkBoard (closed_machine 40000 100 0 320000000) 0 0)
                [T1_rising; PPS_rising; T1_rising]) as H.
  cbv zeta in H. destruct H as (H & _).
  - vm_compute. auto.
  - reflexivity.
  - rewrite H. reflexivity.
Defined.
